(** * The class-based evaluator of t5 ([t5/evaluation/evaluator.py])

    A shallow embedding of [Evaluator.__init__], [Evaluator.evaluate] and
    [Evaluator._log_eval_results], followed by the properties of the
    ordering protocol, of the sequence-length reconciliation and of the
    metric pipeline.

    Python values that cross the predictor boundary are modelled by [obj];
    exceptions by [exn]; every call into a collaborator (task registry,
    feature converter, predictor, vocabulary, post-processor, metric
    function, logger, summary writer) leaves an [event] in a trace, so that
    statements such as "no decoding is performed" can be read off the trace. *)

From Stdlib Require Import ZArith QArith Lia.
From stdpp Require Import base option list sorting strings gmap.

Local Open Scope string_scope.
Local Open Scope list_scope.
Local Open Scope Z_scope.

(** ** Exceptions and fallible computations *)

Inductive exn : Type :=
  | ValueError (msg : string)
  | IndexError
  | KeyError (key : string)
  | TypeError
  | AttributeError (attr : string)
  | UnboundLocalError (var : string).

Inductive res (A : Type) : Type :=
  | Ok (a : A)
  | Err (e : exn).
Arguments Ok {A} a.
Arguments Err {A} e.

#[export] Instance res_ret : MRet res := λ A a, Ok a.
#[export] Instance res_bind : MBind res := λ A B f m,
  match m with
  | Ok a => f a
  | Err e => Err e
  end.

Definition is_Ok {A} (r : res A) : Prop := ∃ a, r = Ok a.

(** ** Python values returned by the predictor

    [predict_fn] is annotated [Sequence[Tuple[int, Sequence[int]]]]; nothing
    enforces the annotation, so an element is a tuple of any length whose
    components are integers or integer sequences. *)

Inductive obj : Type :=
  | Int (z : Z)
  | Seq (l : list Z).

Abbreviation tuple := (list obj) (only parsing).

(** [t[i]] for a non-negative literal index. *)
Definition py_index {A} (t : list A) (i : nat) : res A :=
  match t !! i with
  | Some x => Ok x
  | None => Err IndexError
  end.

(** [d[k]] on a dict. *)
Definition py_getitem {A} (d : gmap string A) (k : string) : res A :=
  match d !! k with
  | Some x => Ok x
  | None => Err (KeyError k)
  end.

(** Lexicographic [<] of two integer sequences. *)
Fixpoint seq_lt (a b : list Z) : bool :=
  match a, b with
  | [], [] => false
  | [], _ :: _ => true
  | _ :: _, [] => false
  | x :: a', y :: b' =>
      if x <? y then true else if y <? x then false else seq_lt a' b'
  end.

(** Python's [<]: integers by value, sequences lexicographically, an
    integer against a sequence is a [TypeError]. *)
Definition py_lt (a b : obj) : res bool :=
  match a, b with
  | Int x, Int y => Ok (x <? y)
  | Seq x, Seq y => Ok (seq_lt x y)
  | _, _ => Err TypeError
  end.

(** ** [sorted(rows, key=lambda x: x[0])]

    [sorted] first computes the key of every element, in order, then sorts
    the decorated list with [<] on the keys only, and is stable.  A stable
    sort has only one possible result, so the stable insertion sort below
    returns what [sorted] returns whenever all comparisons succeed; keys
    that mix integers and sequences make either raise [TypeError]. *)

Fixpoint insort (k : obj) (x : tuple) (l : list (obj * tuple))
  : res (list (obj * tuple)) :=
  match l with
  | [] => Ok [(k, x)]
  | (k', y) :: l' =>
      b ← py_lt k' k;
      if b : bool then r ← insort k x l'; Ok ((k', y) :: r)
      else Ok ((k, x) :: (k', y) :: l')
  end.

Fixpoint sort_decorated (l : list (obj * tuple)) : res (list (obj * tuple)) :=
  match l with
  | [] => Ok []
  | (k, x) :: l' => s ← sort_decorated l'; insort k x s
  end.

Definition sorted_by_first (rows : list tuple) : res (list tuple) :=
  keys ← mapM (λ x : tuple, py_index x 0) rows;
  s ← sort_decorated (zip keys rows);
  Ok (s.*2).

(** Lines 208-214 of [evaluate]: the shape check on the first element, then
    [[x[1] for x in sorted(indices_and_output_tokens, key=lambda x: x[0])]]. *)

Definition shape_error : exn :=
  ValueError "Output from the predict_fn should be a sequence of length-2 tuple with (index, decoding) format".

Definition ordered_output_tokens (indices_and_output_tokens : list tuple)
  : res (list obj) :=
  first ← py_index indices_and_output_tokens 0;
  if bool_decide (length first ≠ 2%nat) then Err shape_error
  else
    s ← sorted_by_first indices_and_output_tokens;
    mapM (λ x : tuple, py_index x 1) s.

(** ** Observable effects

    Log records and calls into collaborators, in the order they happen. *)

Inductive warning : Type :=
  | NoValidEvalTask        (* "No eval task with valid split and metric fn found." *)
  | InsufficientLengths    (* "Given sequence lengths are insufficient ..." *)
  | LongerThanNecessary    (* "Given sequence lengths are longer than necessary ..." *)
  | StepNotProvided.       (* "Step number for the logging session is not provided." *)

Section Model.
Context {Example ModelEx Value MetricValue : Type}.

Inductive event : Type :=
  | LogWarning (w : warning)
  | LogInfoLengths (max_lengths : gmap string Z)
  | LogInfoMetric (tag : string) (step : Z) (value : MetricValue)
  | CallGetTargetsAndExamples
  | CallFeatureConverter (task : string)
  | CallPredictFn (task : string)
  | CallDecode (task : string)
  | CallPostprocess (task : string)
  | CallMetricFn (task : string)
  | OpenSummaryWriter (dir : string)
  | AddSummary (tag : string) (value : MetricValue) (step : Z)
  | FlushSummary.

(** A computation leaves a trace and either returns or raises; the trace
    emitted before an exception is kept. *)
Definition M (A : Type) : Type := list event * res A.

#[export] Instance M_ret : MRet M := λ A a, ([], Ok a).
#[export] Instance M_bind : MBind M := λ A B f m,
  match m.2 with
  | Ok a => (m.1 ++ (f a).1, (f a).2)
  | Err e => (m.1, Err e)
  end.

Definition lift {A} (r : res A) : M A := ([], r).
Definition emit (e : event) : M unit := ([e], Ok tt).

(** [for x in l: s = body(s, x)] *)
Fixpoint for_fold {A S} (l : list A) (s : S) (body : S → A → M S) : M S :=
  match l with
  | [] => mret s
  | x :: l' => s' ← body s x; for_fold l' s' body
  end.

(** [for x in l: body(x)] *)
Definition for_each {A} (l : list A) (body : A → M unit) : M unit :=
  for_fold l tt (λ _ x, body x).

(** ** Tasks *)

Record Vocabulary : Type := { decode : list Z → Value }.
Record Feature : Type := { vocabulary : Vocabulary }.

Definition metrics_dict : Type := list (string * MetricValue).

Record Task : Type := {
  name : string;
  (* [get_dataset(sequence_length=None, split, shuffle, use_cached)] *)
  get_dataset : string → bool → bool → list Example;
  output_features : gmap string Feature;
  postprocess_fn : Value → Example → bool → Value;
  metric_fns : list (list Value → list Value → metrics_dict)
}.

(** ** The evaluator object

    An attribute that [__init__] has not assigned is [None] here; reading it
    raises [AttributeError].  [_summary_writer], when assigned, holds Python's
    [None] or a [FileWriter] on a directory. *)

Record Evaluator : Type := {
  _eval_tasks : list Task;
  _cached_ds : option (gmap string (list (Z * ModelEx)));
  _cached_examples : option (gmap string (list Example));
  _cached_targets : option (gmap string (list Value));
  _summary_writer : option (option string)
}.

Definition getattr {A} (attr : string) (field : option A) : res A :=
  match field with
  | Some v => Ok v
  | None => Err (AttributeError attr)
  end.

Definition eval_tasks (self : Evaluator) : list Task := _eval_tasks self.
Definition cached_ds (self : Evaluator) := getattr "_cached_ds" (_cached_ds self).
Definition cached_examples (self : Evaluator) :=
  getattr "_cached_examples" (_cached_examples self).
Definition cached_targets (self : Evaluator) :=
  getattr "_cached_targets" (_cached_targets self).
Definition summary_writer (self : Evaluator) :=
  getattr "_summary_writer" (_summary_writer self).

(** [ds.enumerate()] *)
Definition enumerate {A} (ds : list A) : list (Z * A) :=
  imap (λ i x, (Z.of_nat i, x)) ds.

(** ** [Evaluator.__init__] *)

Section Init.
(** [t5.data] and [t5.models.utils], which the module imports. *)
Variable get_subtasks : string → res (list Task).
  (* [t5.data.get_subtasks(t5.data.get_mixture_or_task(name))] *)
Variable get_valid_eval_tasks : list Task → string → list Task.
Variable get_targets_and_examples :
  list Task → (Task → list Example) →
  gmap string (list Example) * gmap string (list Value)
  * gmap string (list Example) * gmap string Z.

(** The [if]/[elif]/[elif] of lines 108-128.  [None] as the result is the
    local variable [lengths] left unassigned. *)
Definition reconcile_lengths (sequence_lengths : option (gmap string Z))
    (max_lengths : gmap string Z) : M (option (gmap string Z)) :=
  match sequence_lengths with
  | None => emit (LogInfoLengths max_lengths);; mret (Some max_lengths)
  | Some given =>
      gi ← lift (py_getitem given "inputs");
      mi ← lift (py_getitem max_lengths "inputs");
      less ← (if gi <? mi then mret true
              else gt ← lift (py_getitem given "targets");
                   mt ← lift (py_getitem max_lengths "targets");
                   mret (gt <? mt));
      if less : bool then
        emit (LogWarning InsufficientLengths);; mret (Some given)
      else
        gi ← lift (py_getitem given "inputs");
        mi ← lift (py_getitem max_lengths "inputs");
        more ← (if gi >? mi then mret true
                else gt ← lift (py_getitem given "targets");
                     mt ← lift (py_getitem max_lengths "targets");
                     mret (gt >? mt));
        if more : bool then
          emit (LogWarning LongerThanNecessary);; mret (Some given)
        else mret None
  end.

(** Lines 133-141: the body of the conversion loop for one task. *)
Definition conversion_body
    (feature_converter : list Example → gmap string Z → list ModelEx)
    (task_datasets : gmap string (list Example))
    (lengths : option (gmap string Z))
    (cached : gmap string (list (Z * ModelEx))) (task : Task)
  : M (gmap string (list (Z * ModelEx))) :=
  raw ← lift (py_getitem task_datasets (name task));
  lengths ← lift (match lengths with
                  | Some l => Ok l
                  | None => Err (UnboundLocalError "lengths")
                  end);
  emit (CallFeatureConverter (name task));;
  let eval_ds := feature_converter raw lengths in
  let eval_ds := enumerate eval_ds in
  mret (<[name task := eval_ds]> cached).

(** Lines 146-148: [if summary_dir: self._summary_writer = FileWriter(...)];
    the attribute is assigned nowhere else. *)
Definition open_writer (summary_dir : option string) : M (option (option string)) :=
  match summary_dir with
  | Some dir =>
      if bool_decide (dir = "") then mret None
      else emit (OpenSummaryWriter dir);; mret (Some (Some dir))
  | None => mret None
  end.

Definition unset : Evaluator :=
  {| _eval_tasks := []; _cached_ds := None; _cached_examples := None;
     _cached_targets := None; _summary_writer := None |}.

Definition __init__ (mixture_or_task_name : string)
    (feature_converter : list Example → gmap string Z → list ModelEx)
    (eval_split : string) (use_cached : bool)
    (sequence_lengths : option (gmap string Z))
    (summary_dir : option string) : M Evaluator :=
  all_tasks ← lift (get_subtasks mixture_or_task_name);
  let tasks := get_valid_eval_tasks all_tasks eval_split in
  match tasks with
  | [] => emit (LogWarning NoValidEvalTask);; mret unset
  | _ :: _ =>
      let dataset_fn (task : Task) := get_dataset task eval_split false use_cached in
      emit CallGetTargetsAndExamples;;
      let '(examples, targets, task_datasets, max_lengths) :=
        get_targets_and_examples tasks dataset_fn in
      lengths ← reconcile_lengths sequence_lengths max_lengths;
      ds ← for_fold tasks ∅ (conversion_body feature_converter task_datasets lengths);
      writer ← open_writer summary_dir;
      mret {| _eval_tasks := tasks; _cached_ds := Some ds;
              _cached_examples := Some examples;
              _cached_targets := Some targets;
              _summary_writer := writer |}
  end.

End Init.

(** ** [Evaluator._log_eval_results] *)

Definition _log_eval_results (self : Evaluator)
    (task_metrics : list metrics_dict) (step : option Z)
    (task_name : string) : M unit :=
  step ← match step with
         | None => emit (LogWarning StepNotProvided);; mret (-1)
         | Some s => mret s
         end;
  for_each task_metrics (λ task_metric,
    for_each task_metric (λ '(metric_name, metric_value),
      w ← lift (summary_writer self);
      let tag := "eval/" +:+ task_name +:+ "/" +:+ metric_name in
      emit (LogInfoMetric tag step metric_value);;
      w ← lift (summary_writer self);
      if w is Some _ then emit (AddSummary tag metric_value step)
      else mret tt));;
  w ← lift (summary_writer self);
  if w is Some _ then emit FlushSummary else mret tt.

(** ** [Evaluator.evaluate] *)

(** [[int(token) for token in tokens]] *)
Definition int_tokens (tokens : obj) : res (list Z) :=
  match tokens with
  | Seq l => Ok l
  | Int _ => Err TypeError
  end.

(** Lines 219-238: the predictions of one task and its metrics. *)
Definition task_metrics (self : Evaluator) (all_output_tokens : gmap string (list obj))
    (task : Task) : M (list metrics_dict) :=
  task_examples ← lift (d ← cached_examples self; py_getitem d (name task));
  targets ← lift (d ← cached_targets self; py_getitem d (name task));
  output_tokens ← lift (py_getitem all_output_tokens (name task));
  task_vocab ← lift (f ← py_getitem (output_features task) "targets";
                     Ok (vocabulary f));
  outputs ← mapM (λ tokens,
               ints ← lift (int_tokens tokens);
               emit (CallDecode (name task));;
               mret (decode task_vocab ints)) output_tokens;
  predictions ← mapM (λ '(d, ex),
                   emit (CallPostprocess (name task));;
                   mret (postprocess_fn task d ex false))
                 (zip outputs task_examples);
  mapM (λ metric_fn : list Value → list Value → metrics_dict,
          emit (CallMetricFn (name task));;
          mret (metric_fn targets predictions)) (metric_fns task).

(** The cached dataset handed to the predictor: [self.cached_ds[task.name]]. *)
Definition dataset_of (self : Evaluator) (task : Task) : res (list (Z * ModelEx)) :=
  d ← cached_ds self; py_getitem d (name task).

(** Lines 206-214: the body of the prediction loop for one task. *)
Definition task_output_tokens (self : Evaluator)
    (predict_fn : list (Z * ModelEx) → list tuple) (task : Task) : M (list obj) :=
  ds ← lift (dataset_of self task);
  emit (CallPredictFn (name task));;
  let indices_and_output_tokens := predict_fn ds in
  lift (ordered_output_tokens indices_and_output_tokens).

Definition prediction_body (self : Evaluator)
    (predict_fn : list (Z * ModelEx) → list tuple)
    (all_output_tokens : gmap string (list obj)) (task : Task)
  : M (gmap string (list obj)) :=
  tokens ← task_output_tokens self predict_fn task;
  mret (<[name task := tokens]> all_output_tokens).

(** Lines 218-240: the body of the metric loop for one task. *)
Definition metrics_body (self : Evaluator) (step : option Z)
    (all_output_tokens : gmap string (list obj))
    (all_metrics : gmap string (list metrics_dict)) (task : Task)
  : M (gmap string (list metrics_dict)) :=
  metrics ← task_metrics self all_output_tokens task;
  let all_metrics := <[name task := metrics]> all_metrics in
  _log_eval_results self metrics step (name task);;
  mret all_metrics.

Definition evaluate (self : Evaluator) (compute_metrics : bool)
    (step : option Z) (predict_fn : list (Z * ModelEx) → list tuple)
  : M (gmap string (list obj) * option (gmap string (list metrics_dict))) :=
  all_output_tokens ← for_fold (eval_tasks self) ∅ (prediction_body self predict_fn);
  if compute_metrics then
    all_metrics ← for_fold (eval_tasks self) ∅ (metrics_body self step all_output_tokens);
    mret (all_output_tokens, Some all_metrics)
  else mret (all_output_tokens, None).

(** The value part of [task_output_tokens], and the mapping the prediction
    loop builds from it when no task fails. *)
Definition restored_tokens (self : Evaluator)
    (predict_fn : list (Z * ModelEx) → list tuple) (task : Task) : res (list obj) :=
  ds ← dataset_of self task; ordered_output_tokens (predict_fn ds).

Definition store_tokens (self : Evaluator)
    (predict_fn : list (Z * ModelEx) → list tuple)
    (acc : gmap string (list obj)) (task : Task) : gmap string (list obj) :=
  match restored_tokens self predict_fn task with
  | Ok tokens => <[name task := tokens]> acc
  | Err _ => acc
  end.

Definition collected (self : Evaluator)
    (predict_fn : list (Z * ModelEx) → list tuple) : gmap string (list obj) :=
  foldl (store_tokens self predict_fn) ∅ (eval_tasks self).

(** The value part of [task_metrics] (no trace), and the mapping the metric
    loop builds from it when nothing fails. *)
Definition task_metrics_value (self : Evaluator)
    (all_output_tokens : gmap string (list obj)) (task : Task)
  : res (list metrics_dict) :=
  task_examples ← (d ← cached_examples self; py_getitem d (name task));
  targets ← (d ← cached_targets self; py_getitem d (name task));
  output_tokens ← py_getitem all_output_tokens (name task);
  task_vocab ← (f ← py_getitem (output_features task) "targets"; Ok (vocabulary f));
  ids ← mapM int_tokens output_tokens;
  let outputs := decode task_vocab <$> ids in
  let predictions :=
    (λ p : Value * Example, postprocess_fn task p.1 p.2 false)
      <$> zip outputs task_examples in
  Ok ((λ metric_fn : list Value → list Value → metrics_dict,
         metric_fn targets predictions) <$> metric_fns task).

Definition store_metrics (self : Evaluator)
    (all_output_tokens : gmap string (list obj))
    (acc : gmap string (list metrics_dict)) (task : Task)
  : gmap string (list metrics_dict) :=
  match task_metrics_value self all_output_tokens task with
  | Ok metrics => <[name task := metrics]> acc
  | Err _ => acc
  end.

Definition collected_metrics (self : Evaluator)
    (all_output_tokens : gmap string (list obj)) : gmap string (list metrics_dict) :=
  foldl (store_metrics self all_output_tokens) ∅ (eval_tasks self).

End Model.

Arguments event : clear implicits.
Arguments M : clear implicits.

(** ** Index-tagged predictor results

    [index_from n toks] pairs the token sequences with the indices
    [n, n+1, ...]: the predictor's result when it answers in dataset order. *)

Fixpoint index_from (n : Z) (toks : list obj) : list tuple :=
  match toks with
  | [] => []
  | t :: rest => [Int n; t] :: index_from (n + 1) rest
  end.

Definition in_index_order (toks : list obj) : list tuple := index_from 0 toks.

(** A well-formed pair: an integer index and a sequence of token ids. *)
Definition is_pair (x : tuple) : Prop := ∃ i l, x = [Int i; Seq l].

(** The key [sorted] uses and the component the comprehension keeps. *)
Definition key_of (x : tuple) : obj := default (Int 0) (x !! 0%nat).
Definition tokens_of (x : tuple) : obj := default (Int 0) (x !! 1%nat).

Definition decorate (x : tuple) : obj * tuple := (key_of x, x).

Definition int_keyed (p : obj * tuple) : Prop := ∃ i, p.1 = Int i.

Definition key_le (a b : obj * tuple) : Prop :=
  match a.1, b.1 with
  | Int x, Int y => x ≤ y
  | _, _ => False
  end.

(** What lines 226-233 compute from token-id sequences and raw examples. *)
Definition predictions_of {Example Value MetricValue}
    (task : @Task Example Value MetricValue) (voc : @Vocabulary Value)
    (output_tokens : list (list Z)) (task_examples : list Example) : list Value :=
  (λ p : Value * Example, postprocess_fn task p.1 p.2 false)
    <$> zip (decode voc <$> output_tokens) task_examples.

(** The cache the conversion loop builds with the lengths [lengths]. *)
Definition converted {Example ModelEx Value MetricValue}
    (feature_converter : list Example → gmap string Z → list ModelEx)
    (task_datasets : gmap string (list Example)) (lengths : gmap string Z)
    (acc : gmap string (list (Z * ModelEx)))
    (task : @Task Example Value MetricValue) : gmap string (list (Z * ModelEx)) :=
  <[name task := enumerate (feature_converter (task_datasets !!! name task) lengths)]> acc.

(** The value [__init__] leaves in [_summary_writer]. *)
Definition writer_attr {MetricValue} (summary_dir : option string)
  : option (option string) :=
  match (open_writer (MetricValue := MetricValue) summary_dir).2 with
  | Ok w => w
  | Err _ => None
  end.

(** Events that build or convert a dataset. *)
Definition is_build {V} (e : event V) : bool :=
  match e with
  | CallGetTargetsAndExamples | CallFeatureConverter _ => true
  | _ => false
  end.

(** Calls of the predictor. *)
Definition is_predict {V} (e : event V) : bool :=
  match e with
  | CallPredictFn _ => true
  | _ => false
  end.

#[export] Instance obj_eq_dec : EqDecision obj.
Proof. solve_decision. Defined.

(** The integer key of a row, for rows that have one. *)
Definition has_int_key (x : tuple) : Prop := ∃ i, x !! 0%nat = Some (Int i).

(** What [_log_eval_results] emits for one metric entry and for a whole
    batch, given the value of [_summary_writer] and the step in use. *)
Definition entry_events {V} (writer : option string) (task_name : string)
    (step : Z) (entry : string * V) : list (event V) :=
  let tag := "eval/" +:+ task_name +:+ "/" +:+ entry.1 in
  LogInfoMetric tag step entry.2
  :: (if writer is Some _ then [AddSummary tag entry.2 step] else []).

Definition log_events {V} (writer : option string) (task_name : string)
    (step : Z) (task_metrics : list (list (string * V))) : list (event V) :=
  (task_metrics ≫= λ task_metric, task_metric ≫= entry_events writer task_name step)
  ++ (if writer is Some _ then [FlushSummary] else []).

(** ** A small registry used to run the model

    The task [copy] has three examples, [copy2] the last two of them; the
    vocabulary maps token id [n] to the [n]-th lowercase letter; the only
    metric is exact match.  [unscored] has no metric function. *)

Module Fixture.

Record example := { inputs : list Z; targets : list Z; targets_pretokenized : string }.

Definition letter (n : Z) : string :=
  String (Ascii.ascii_of_nat (96 + Z.to_nat n)) EmptyString.

Definition letters : Vocabulary (Value := string) :=
  {| decode := λ ids, String.concat "" (letter <$> ids) |}.

(** Exact-match accuracy as a fraction. *)
Definition accuracy (targets predictions : list string) : list (string * Q) :=
  let hits := length (filter (λ p : string * string, p.1 = p.2) (zip targets predictions)) in
  [("accuracy", Qred (Z.of_nat hits # Pos.of_nat (length targets)))].

Definition dataset : list example :=
  [ {| inputs := [3; 1; 20; 3; 1; 20; 3; 1; 20; 1]; targets := [1];
       targets_pretokenized := "a" |};
    {| inputs := [4; 15; 7]; targets := [2; 2; 2; 2; 2];
       targets_pretokenized := "b" |};
    {| inputs := [3; 15; 23]; targets := [3]; targets_pretokenized := "c" |} ].

Definition copy (task_name : string) (ds : list example) : Task :=
  {| name := task_name;
     get_dataset := λ _ _ _, ds;
     output_features := {[ "inputs" := {| vocabulary := letters |};
                           "targets" := {| vocabulary := letters |} ]};
     postprocess_fn := λ (d : string) (_ : example) (_ : bool), d;
     metric_fns := [accuracy] |}.

Definition unscored : Task (Example := example) (Value := string) (MetricValue := Q) :=
  {| name := "unscored";
     get_dataset := λ _ _ _, dataset;
     output_features := ∅;
     postprocess_fn := λ d _ _, d;
     metric_fns := [] |}.

Definition get_subtasks (mixture_or_task_name : string)
  : res (list (Task (Example := example) (Value := string) (MetricValue := Q))) :=
  if bool_decide (mixture_or_task_name = "copy") then Ok [copy "copy" dataset]
  else if bool_decide (mixture_or_task_name = "copy_twice") then
    Ok [copy "copy" dataset; copy "copy2" (drop 1 dataset)]
  else if bool_decide (mixture_or_task_name = "unscored") then Ok [unscored]
  else Err (ValueError "No Task or Mixture found").

Definition get_valid_eval_tasks
    (tasks : list (Task (Example := example) (Value := string) (MetricValue := Q)))
    (split : string) :=
  filter (λ t, metric_fns t ≠ []) tasks.

Definition max_of (f : example → list Z) (ds : list example) (m : Z) : Z :=
  foldr (λ ex acc, Z.max (Z.of_nat (length (f ex))) acc) m ds.

Definition cache_task (dataset_fn : Task (Example := example) (Value := string) (MetricValue := Q)
                                   → list example)
    (acc : gmap string (list example) * gmap string (list string)
           * gmap string (list example) * gmap string Z)
    (task : Task (Example := example) (Value := string) (MetricValue := Q)) :=
  let ds := dataset_fn task in
  (<[name task := ds]> acc.1.1.1,
   <[name task := (λ ex, postprocess_fn task (targets_pretokenized ex) ex true) <$> ds]>
     acc.1.1.2,
   <[name task := ds]> acc.1.2,
   <["inputs" := max_of inputs ds (acc.2 !!! "inputs")]>
     (<["targets" := max_of targets ds (acc.2 !!! "targets")]> acc.2)).

Definition get_targets_and_examples
    (tasks : list (Task (Example := example) (Value := string) (MetricValue := Q)))
    (dataset_fn : Task (Example := example) (Value := string) (MetricValue := Q)
                  → list example) :=
  foldl (cache_task dataset_fn) (∅, ∅, ∅, {[ "inputs" := 0; "targets" := 0 ]}) tasks.

Definition feature_converter (ds : list example) (lengths : gmap string Z) : list (list Z) :=
  (λ ex, take (Z.to_nat (lengths !!! "inputs")) (inputs ex)) <$> ds.

Definition construct (mixture_or_task_name : string)
    (sequence_lengths : option (gmap string Z)) (summary_dir : option string) :=
  __init__ get_subtasks get_valid_eval_tasks get_targets_and_examples
    mixture_or_task_name feature_converter "validation" false
    sequence_lengths summary_dir.

(** The evaluator object of a successful construction. *)
Definition built (mixture_or_task_name : string)
    (sequence_lengths : option (gmap string Z)) (summary_dir : option string) :=
  match (construct mixture_or_task_name sequence_lengths summary_dir).2 with
  | Ok self => self
  | Err _ => unset
  end.

(** A predictor that answers [a], [x], [c] and returns the pairs reversed. *)
Definition answer (i : Z) : list Z :=
  if bool_decide (i = 1) then [24] else [i + 1].

Definition predict_reversed (ds : list (Z * list Z)) : list tuple :=
  reverse ((λ p : Z * list Z, [Int p.1; Seq (answer p.1)]) <$> ds).

Definition predict_in_order (ds : list (Z * list Z)) : list tuple :=
  (λ p : Z * list Z, [Int p.1; Seq (answer p.1)]) <$> ds.

(** Supplied sequence lengths; the observed maxima are 10 and 5. *)
Definition exact : gmap string Z := {[ "inputs" := 10; "targets" := 5 ]}.
Definition longer : gmap string Z := {[ "inputs" := 20; "targets" := 5 ]}.
Definition shorter : gmap string Z := {[ "inputs" := 8; "targets" := 5 ]}.
Definition mixed : gmap string Z := {[ "inputs" := 20; "targets" := 3 ]}.

(** The evaluator on [copy], without and with a summary directory. *)
Definition plain := built "copy" None None.
Definition logged := built "copy" None (Some "dir").
Definition twice := built "copy_twice" None None.

Definition copy_ds : list (Z * list Z) :=
  [(0, [3; 1; 20; 3; 1; 20; 3; 1; 20; 1]); (1, [4; 15; 7]); (2, [3; 15; 23])].

(** A predictor whose first element has three components. *)
Definition predict_triple (ds : list (Z * list Z)) : list tuple :=
  [[Int 0; Seq [1]; Seq [9]]; [Int 1; Seq [2]]; [Int 2; Seq [3]]].

(** A predictor whose second element has three components. *)
Definition predict_late_triple (ds : list (Z * list Z)) : list tuple :=
  [[Int 0; Seq [1]]; [Int 1; Seq [2]; Seq [9]]; [Int 2; Seq [3]]].

(** A predictor that answers nothing. *)
Definition predict_nothing (ds : list (Z * list Z)) : list tuple := [].

(** A predictor that answers in order on three examples and nothing otherwise. *)
Definition predict_three_only (ds : list (Z * list Z)) : list tuple :=
  if bool_decide (length ds = 3%nat) then predict_in_order ds else [].

(** A predictor that answers two pairs for three examples, with indices
    that are not positions of the dataset. *)
Definition predict_two (ds : list (Z * list Z)) : list tuple :=
  [[Int 7; Seq [2]]; [Int 5; Seq [1]]].

(** Supplied lengths that lack a feature. *)
Definition only_inputs_short : gmap string Z := {[ "inputs" := 8 ]}.
Definition only_inputs : gmap string Z := {[ "inputs" := 10 ]}.
Definition only_targets : gmap string Z := {[ "targets" := 5 ]}.

(** The evaluator of a mixture without active task, with a summary directory. *)
Definition inactive := built "unscored" None (Some "dir").

(** A predictor that answers index 1 twice. *)
Definition predict_duplicates (ds : list (Z * list Z)) : list tuple :=
  [[Int 1; Seq [7]]; [Int 0; Seq [5]]; [Int 1; Seq [6]]].

(** A predictor whose last element has no token sequence. *)
Definition predict_short_later (ds : list (Z * list Z)) : list tuple :=
  [[Int 1; Seq [7]]; [Int 0]].

(** A predictor whose last element has no component at all. *)
Definition predict_empty_later (ds : list (Z * list Z)) : list tuple :=
  [[Int 1; Seq [7]]; []].

(** A batch of metric dictionaries. *)
Definition batch : list (list (string * Q)) :=
  [[("accuracy", 2 # 3); ("f1", 1 # 2)]; []; [("bleu", 1 # 4)]].

End Fixture.

(** * Properties *)

(** ** The error monad on [res] *)

Lemma res_ret_bind {A B} (f : A → res B) (a : A) : Ok a ≫= f = f a.
Proof. done. Qed.

Lemma mapM_res_Ok {A B} (f : A → res B) (g : A → B) (l : list A) :
  Forall (λ x, f x = Ok (g x)) l → mapM f l = Ok (g <$> l).
Proof.
  induction 1 as [|x l Hx _ IH]; [done|].
  cbn. rewrite Hx. cbn. rewrite IH. done.
Qed.

(** ** The stable sort on integer keys *)

Section Sorting.

Lemma key_le_trans a b c : key_le a b → key_le b c → key_le a c.
Proof.
  unfold key_le. destruct a.1, b.1, c.1; try done. lia.
Qed.

Lemma keys_of_rows (rows : list tuple) :
  Forall (λ x, is_Some (x !! 0%nat)) rows →
  mapM (λ x : tuple, py_index x 0) rows = Ok (key_of <$> rows).
Proof.
  intros H. apply mapM_res_Ok. eapply Forall_impl; [exact H|].
  intros x [k Hk]. unfold py_index, key_of. by rewrite Hk.
Qed.

Lemma zip_keys (rows : list tuple) :
  zip (key_of <$> rows) rows = decorate <$> rows.
Proof. induction rows as [|x rows IH]; [done|]. cbn. by rewrite IH. Qed.

Lemma insort_sorted k x l :
  Forall int_keyed l → StronglySorted key_le l →
  ∃ s, insort (Int k) x l = Ok s ∧ s ≡ₚ (Int k, x) :: l
       ∧ StronglySorted key_le s.
Proof.
  induction l as [|[k' y] l IH]; intros Hk Hs.
  - exists [(Int k, x)]. split; [done|]. split; [reflexivity|]. repeat constructor.
  - apply Forall_cons in Hk as [[i Hi] Hk]. cbn in Hi. subst k'.
    apply StronglySorted_inv in Hs as [Hs Hhd].
    cbn. destruct (Z.ltb_spec i k) as [Hlt|Hge]; cbn.
    + destruct (IH Hk Hs) as (s & -> & Hp & Hss). cbn.
      exists ((Int i, y) :: s). repeat split.
      * rewrite Hp. apply Permutation_swap.
      * constructor; [done|]. rewrite Hp. constructor; [|done].
        unfold key_le. cbn. lia.
    + eexists. repeat split; [done|].
      constructor; [by constructor|].
      assert (key_le (Int k, x) (Int i, y)) as Hle by (unfold key_le; cbn; lia).
      constructor; [done|].
      eapply Forall_impl; [exact Hhd|]. intros p. by apply key_le_trans.
Qed.

Lemma sort_decorated_sorted l :
  Forall int_keyed l →
  ∃ s, sort_decorated l = Ok s ∧ s ≡ₚ l ∧ StronglySorted key_le s.
Proof.
  induction l as [|[k x] l IH]; intros Hk.
  - exists []. split; [done|]. split; [reflexivity|]. constructor.
  - apply Forall_cons in Hk as [[i Hi] Hk]. cbn in Hi. subst k.
    destruct (IH Hk) as (s & Hs & Hp & Hss). cbn. rewrite Hs. cbn.
    destruct (insort_sorted i x s) as (s' & -> & Hp' & Hss'); [|done|].
    { by rewrite Hp. }
    exists s'. repeat split; [|done]. by rewrite Hp', Hp.
Qed.

(** The index-tagged list: shape, bounds, sortedness. *)

Lemma elem_of_index_from n toks x :
  x ∈ index_from n toks → ∃ i t, x = [Int i; t] ∧ n ≤ i ∧ t ∈ toks.
Proof.
  revert n. induction toks as [|t toks IH]; intros n; cbn.
  - by intros ?%elem_of_nil.
  - intros [->|Hx]%elem_of_cons.
    + exists n, t. repeat split; [lia|by left].
    + destruct (IH _ Hx) as (i & t' & -> & ? & ?).
      exists i, t'. repeat split; [lia|by right].
Qed.

Lemma index_from_sorted n toks :
  StronglySorted key_le (decorate <$> index_from n toks).
Proof.
  revert n. induction toks as [|t toks IH]; intros n; cbn; constructor.
  - apply IH.
  - apply Forall_fmap, Forall_forall. intros x Hx.
    destruct (elem_of_index_from _ _ _ Hx) as (i & t' & -> & ? & _).
    unfold key_le. cbn. lia.
Qed.

Lemma index_from_key_inj n toks x y :
  x ∈ index_from n toks → y ∈ index_from n toks → key_of x = key_of y → x = y.
Proof.
  revert n. induction toks as [|t toks IH]; intros n; cbn.
  - by intros ?%elem_of_nil.
  - intros [->|Hx]%elem_of_cons [->|Hy]%elem_of_cons Hk; [done| | |by eapply IH].
    + destruct (elem_of_index_from _ _ _ Hy) as (i & t' & -> & ? & _).
      cbn in Hk. injection Hk. lia.
    + destruct (elem_of_index_from _ _ _ Hx) as (i & t' & -> & ? & _).
      cbn in Hk. injection Hk. lia.
Qed.

Lemma tokens_of_index_from n toks : tokens_of <$> index_from n toks = toks.
Proof. revert n. induction toks as [|t toks IH]; intros n; cbn; [done|]. by rewrite IH. Qed.

Lemma sorted_by_first_permutation rows toks :
  rows ≡ₚ in_index_order toks →
  sorted_by_first rows = Ok (in_index_order toks).
Proof.
  intros Hp. unfold sorted_by_first.
  assert (∀ x, x ∈ rows → ∃ i t, x = [Int i; t]) as Hshape.
  { intros x Hx. rewrite Hp in Hx.
    destruct (elem_of_index_from _ _ _ Hx) as (i & t & -> & _). eauto. }
  rewrite keys_of_rows.
  2:{ apply Forall_forall. intros x Hx. destruct (Hshape x Hx) as (i & t & ->). by eexists. }
  cbn. rewrite zip_keys.
  destruct (sort_decorated_sorted (decorate <$> rows)) as (s & -> & Hs & Hss).
  { apply Forall_fmap, Forall_forall. intros x Hx.
    destruct (Hshape x Hx) as (i & t & ->). by exists i. }
  cbn. f_equal.
  assert (s = decorate <$> in_index_order toks) as ->.
  { apply (StronglySorted_unique_strong key_le); [|done|apply index_from_sorted|].
    - intros p q Hp1 Hq Hpq Hqp.
      rewrite Hs, Hp in Hp1.
      apply list_elem_of_fmap in Hp1 as (x & -> & Hx).
      apply list_elem_of_fmap in Hq as (y & -> & Hy).
      f_equal. eapply index_from_key_inj; [done..|].
      unfold key_le in *. cbn in *.
      destruct (key_of x), (key_of y); try done. f_equal. lia.
    - by rewrite Hs, Hp. }
  rewrite <-list_fmap_compose. apply list_fmap_id.
Qed.

Lemma ordered_output_tokens_permutation rows toks :
  rows ≡ₚ in_index_order toks →
  ordered_output_tokens rows
  = match toks with [] => Err IndexError | _ :: _ => Ok toks end.
Proof.
  intros Hp. unfold ordered_output_tokens.
  destruct rows as [|x rows].
  { apply Permutation_nil_l in Hp. by destruct toks. }
  assert (∃ i t, x = [Int i; t]) as (i & t & ->).
  { assert (x ∈ in_index_order toks) as Hx by (rewrite <-Hp; by left).
    destruct (elem_of_index_from _ _ _ Hx) as (i & t & -> & _). eauto. }
  cbn -[sorted_by_first]. rewrite (sorted_by_first_permutation _ _ Hp).
  cbn. destruct toks as [|t0 toks].
  { symmetry in Hp. by apply Permutation_nil_cons in Hp. }
  rewrite (mapM_res_Ok _ tokens_of).
  - unfold in_index_order. by rewrite tokens_of_index_from.
  - apply Forall_forall. intros y Hy.
    destruct (elem_of_index_from _ _ _ Hy) as (j & u & -> & _). done.
Qed.

End Sorting.

(** ** The trace monad *)

Section Monad.
Context {V : Type}.
Implicit Types (t : list (event V)).

Lemma M_bind_fst_snd {A B} (f : A → M V B) (m : M V A) :
  m ≫= f
  = match m.2 with
    | Ok a => (m.1 ++ (f a).1, (f a).2)
    | Err e => (m.1, Err e)
    end.
Proof. done. Qed.

Lemma M_bind_snd {A B} (f : A → M V B) (m : M V A) :
  (m ≫= f).2 = match m.2 with Ok a => (f a).2 | Err e => Err e end.
Proof. rewrite M_bind_fst_snd. by destruct m.2. Qed.

Lemma M_bind_Ok {A B} (f : A → M V B) (m : M V A) t a :
  m = (t, Ok a) → m ≫= f = (t ++ (f a).1, (f a).2).
Proof. by intros ->. Qed.

Lemma M_bind_Err {A B} (f : A → M V B) (m : M V A) t e :
  m = (t, Err e) → m ≫= f = (t, Err e).
Proof. by intros ->. Qed.

Lemma M_bind_trace {A B} (P : event V → Prop) (f : A → M V B) (m : M V A) :
  Forall P m.1 → (∀ a, Forall P (f a).1) → Forall P (m ≫= f).1.
Proof.
  intros Hm Hf. rewrite M_bind_fst_snd. destruct m.2; cbn; [|done].
  apply Forall_app. auto.
Qed.

Lemma mapM_trace {A B} (P : event V → Prop) (f : A → M V B) (l : list A) :
  (∀ x, Forall P (f x).1) → Forall P (mapM f l).1.
Proof.
  intros Hf. induction l as [|x l IH]; cbn; [done|].
  apply M_bind_trace; [done|]. intros y.
  apply M_bind_trace; [done|]. intros k. done.
Qed.

Lemma mapM_snd_Ok {A B} (f : A → M V B) (g : A → B) (l : list A) :
  (∀ x, x ∈ l → (f x).2 = Ok (g x)) → (mapM f l).2 = Ok (g <$> l).
Proof.
  induction l as [|x l IH]; intros Hf; cbn; [done|].
  rewrite M_bind_snd, Hf by left. rewrite M_bind_snd, IH; [done|].
  intros y Hy. apply Hf. by right.
Qed.

Lemma for_fold_trace {A S} (P : event V → Prop) (l : list A) (s : S)
    (body : S → A → M V S) :
  (∀ s x, Forall P (body s x).1) → Forall P (for_fold l s body).1.
Proof.
  intros Hb. revert s. induction l as [|x l IH]; intros s; cbn; [done|].
  apply M_bind_trace; [done|]. intros s'. apply IH.
Qed.

Lemma for_fold_ext {A S} (l : list A) (s : S) (body body' : S → A → M V S) :
  (∀ s x, x ∈ l → body s x = body' s x) →
  for_fold l s body = for_fold l s body'.
Proof.
  revert s. induction l as [|x l IH]; intros s Hb; cbn; [done|].
  rewrite !M_bind_fst_snd, Hb by left.
  destruct (body' s x).2; [|done]. rewrite IH; [done|].
  intros s' y Hy. apply Hb. by right.
Qed.

Lemma for_fold_snd_Ok {A S} (g : S → A → S) (l : list A) (s : S)
    (body : S → A → M V S) :
  (∀ s x, x ∈ l → (body s x).2 = Ok (g s x)) →
  (for_fold l s body).2 = Ok (foldl g s l).
Proof.
  revert s. induction l as [|x l IH]; intros s Hb; cbn; [done|].
  rewrite M_bind_snd, Hb by left. apply IH.
  intros s' y Hy. apply Hb. by right.
Qed.

Lemma for_fold_snd_inv {A S} (l : list A) (s r : S) (body : S → A → M V S) :
  (for_fold l s body).2 = Ok r → ∀ x, x ∈ l → ∃ s', is_Ok (body s' x).2.
Proof.
  revert s. induction l as [|x l IH]; intros s H y Hy.
  { by apply elem_of_nil in Hy. }
  cbn in H. rewrite M_bind_snd in H.
  destruct (body s x).2 as [s'|e] eqn:Hx; [|done].
  apply elem_of_cons in Hy as [->|Hy]; [|by eapply IH].
  exists s. rewrite Hx. by eexists.
Qed.

Lemma for_fold_app {A S} (l1 l2 : list A) (s : S) (body : S → A → M V S) :
  for_fold (l1 ++ l2) s body
  = for_fold l1 s body ≫= λ s', for_fold l2 s' body.
Proof.
  revert s. induction l1 as [|x l1 IH]; intros s.
  - rewrite M_bind_fst_snd. cbn. by destruct (for_fold l2 s body).
  - change (for_fold ((x :: l1) ++ l2) s body)
      with (body s x ≫= λ s', for_fold (l1 ++ l2) s' body).
    change (for_fold (x :: l1) s body)
      with (body s x ≫= λ s', for_fold l1 s' body).
    rewrite !M_bind_fst_snd. destruct (body s x) as [t [s'|e]]; cbn; [|done].
    rewrite IH, !M_bind_fst_snd.
    destruct (for_fold l1 s' body) as [t1 [s1|e1]]; cbn; [|done].
    by rewrite (assoc_L (++)).
Qed.

End Monad.

(** Proof automation for statements on traces. *)
Ltac trace_step :=
  first
    [ apply Forall_nil_2
    | apply M_bind_trace
    | apply mapM_trace
    | apply for_fold_trace
    | progress intros
    | match goal with
      | |- Forall _ (fst (if ?b then _ else _)) => destruct b
      | |- Forall _ (fst (match ?x with _ => _ end)) => destruct x
      end
    | (apply Forall_cons; split; [done|]) ].

(** ** The prediction loop of [evaluate] *)

Section Evaluate.
Context {Example ModelEx Value MetricValue : Type}.
Local Abbreviation Task := (@Task Example Value MetricValue).
Local Abbreviation Evaluator := (@Evaluator Example ModelEx Value MetricValue).
Implicit Types (self : Evaluator) (task : Task) (tasks : list Task).
Implicit Types (predict_fn : list (Z * ModelEx) → list tuple).

Lemma task_output_tokens_unfold self predict_fn task :
  task_output_tokens self predict_fn task
  = match dataset_of self task with
    | Ok ds => ([CallPredictFn (name task)], ordered_output_tokens (predict_fn ds))
    | Err e => ([], Err e)
    end.
Proof.
  unfold task_output_tokens. destruct (dataset_of self task) as [ds|e]; [|done].
  cbn. by destruct (ordered_output_tokens (predict_fn ds)).
Qed.

Lemma task_output_tokens_snd self predict_fn task :
  (task_output_tokens self predict_fn task).2 = restored_tokens self predict_fn task.
Proof.
  rewrite task_output_tokens_unfold. unfold restored_tokens.
  by destruct (dataset_of self task).
Qed.

Lemma prediction_body_Ok self predict_fn acc task tokens :
  restored_tokens self predict_fn task = Ok tokens →
  prediction_body self predict_fn acc task
  = ([CallPredictFn (name task)], Ok (store_tokens self predict_fn acc task)).
Proof.
  intros H. unfold prediction_body, store_tokens. rewrite H.
  rewrite task_output_tokens_unfold. unfold restored_tokens in H.
  destruct (dataset_of self task) as [ds|e]; [|done]. cbn in H. by rewrite H.
Qed.

Lemma prediction_body_Err self predict_fn acc task e :
  restored_tokens self predict_fn task = Err e →
  ∃ t, prediction_body self predict_fn acc task = (t, Err e).
Proof.
  intros H. unfold prediction_body.
  rewrite task_output_tokens_unfold. unfold restored_tokens in H.
  destruct (dataset_of self task) as [ds|e']; cbn in H.
  - rewrite H. by eexists.
  - injection H as ->. by eexists.
Qed.

Lemma prediction_loop_Ok self predict_fn tasks acc :
  Forall (λ task, is_Ok (restored_tokens self predict_fn task)) tasks →
  for_fold tasks acc (prediction_body self predict_fn)
  = ((λ task, CallPredictFn (name task)) <$> tasks,
     Ok (foldl (store_tokens self predict_fn) acc tasks)).
Proof.
  intros H. revert acc. induction H as [|task tasks [tokens Htok] _ IH]; intros acc.
  - done.
  - cbn. rewrite (M_bind_Ok _ _ _ _ (prediction_body_Ok _ _ acc _ _ Htok)).
    by rewrite IH.
Qed.

Lemma prediction_loop_Err self predict_fn pre task post acc e :
  Forall (λ task, is_Ok (restored_tokens self predict_fn task)) pre →
  restored_tokens self predict_fn task = Err e →
  ∃ t, for_fold (pre ++ task :: post) acc (prediction_body self predict_fn)
       = (t, Err e).
Proof.
  intros Hpre Herr. rewrite for_fold_app, prediction_loop_Ok by done.
  destruct (prediction_body_Err _ _ (foldl (store_tokens self predict_fn) acc pre)
              _ _ Herr) as [t Ht].
  cbn. rewrite M_bind_fst_snd, Ht. cbn. by eexists.
Qed.

Lemma prediction_loop_inv self predict_fn tasks acc r :
  (for_fold tasks acc (prediction_body self predict_fn)).2 = Ok r →
  Forall (λ task, is_Ok (restored_tokens self predict_fn task)) tasks.
Proof.
  intros H. apply Forall_forall. intros task Ht.
  destruct (for_fold_snd_inv _ _ _ _ H task Ht) as (s' & a & Ha).
  unfold prediction_body in Ha. rewrite M_bind_snd, task_output_tokens_snd in Ha.
  destruct (restored_tokens self predict_fn task); [by eexists|done].
Qed.

Lemma evaluate_unfold self compute_metrics step predict_fn :
  evaluate self compute_metrics step predict_fn
  = for_fold (eval_tasks self) ∅ (prediction_body self predict_fn)
    ≫= λ all_output_tokens,
      if compute_metrics then
        all_metrics ← for_fold (eval_tasks self) ∅
                        (metrics_body self step all_output_tokens);
        mret (all_output_tokens, Some all_metrics)
      else mret (all_output_tokens, None).
Proof. done. Qed.

Lemma collected_lookup self predict_fn task :
  task ∈ eval_tasks self →
  Forall (λ task, is_Ok (restored_tokens self predict_fn task)) (eval_tasks self) →
  is_Some (collected self predict_fn !! name task).
Proof.
  unfold collected. generalize (∅ : gmap string (list obj)).
  induction (eval_tasks self) as [|t tasks IH] using rev_ind; intros acc Hin Hok.
  { by apply elem_of_nil in Hin. }
  apply Forall_app in Hok as [Hok [[tokens Ht] _]%Forall_cons].
  rewrite foldl_snoc. unfold store_tokens at 1. rewrite Ht.
  destruct (decide (name task = name t)) as [->|Hne].
  - rewrite lookup_insert_eq. by eexists.
  - rewrite lookup_insert_ne by done. apply IH; [|done].
    apply elem_of_app in Hin as [?|Hin]; [done|].
    apply list_elem_of_singleton in Hin. by subst.
Qed.

Lemma evaluate_without_metrics self step predict_fn :
  Forall (λ task, is_Ok (restored_tokens self predict_fn task)) (eval_tasks self) →
  evaluate self false step predict_fn
  = ((λ task, CallPredictFn (name task)) <$> eval_tasks self,
     Ok (collected self predict_fn, None)).
Proof.
  intros Hok. rewrite evaluate_unfold.
  rewrite (M_bind_Ok _ _ _ _ (prediction_loop_Ok self predict_fn _ ∅ Hok)).
  cbn. by rewrite (right_id_L [] (++)).
Qed.

(** C1. For an active task whose predictor result carries the indices
    0..N-1 in any permutation, the loop body of [evaluate] yields the same
    token sequences as for the result already in index order, namely (for
    N > 0) the token sequences in index order: the pairs are sorted by
    index, the index is dropped, the tokens are kept.  When this holds of
    every active task, the whole call has the same trace and outcome as with
    the in-order predictor. *)
Theorem C1_order_restoration_permutation_invariant
    self compute_metrics step predict_fn predict_fn' :
  (∀ task ds toks,
     dataset_of self task = Ok ds →
     predict_fn ds ≡ₚ in_index_order toks →
     predict_fn' ds = in_index_order toks →
     (task_output_tokens self predict_fn task).2
     = (task_output_tokens self predict_fn' task).2
     ∧ (toks ≠ [] → (task_output_tokens self predict_fn task).2 = Ok toks))
  ∧ ((∀ task ds, task ∈ eval_tasks self → dataset_of self task = Ok ds →
        ∃ toks, predict_fn ds ≡ₚ in_index_order toks
                ∧ predict_fn' ds = in_index_order toks) →
     evaluate self compute_metrics step predict_fn
     = evaluate self compute_metrics step predict_fn').
Proof.
  split.
  - intros task ds toks Hds Hp Heq.
    rewrite !task_output_tokens_snd. unfold restored_tokens.
    rewrite Hds, !res_ret_bind, Heq.
    rewrite (ordered_output_tokens_permutation _ _ Hp).
    rewrite (ordered_output_tokens_permutation (in_index_order toks) toks) by done.
    split; [done|]. by destruct toks.
  - intros H. rewrite !evaluate_unfold. f_equal.
    apply for_fold_ext. intros acc task Hin. unfold prediction_body.
    rewrite !task_output_tokens_unfold.
    destruct (dataset_of self task) as [ds|e] eqn:Hds; [|done].
    destruct (H task ds Hin Hds) as (toks & Hp & Heq).
    rewrite (ordered_output_tokens_permutation _ _ Hp).
    rewrite (ordered_output_tokens_permutation (predict_fn' ds) toks); [done|].
    by rewrite Heq.
Qed.

(** C3 (amended). The shape check looks at the first element only: if the
    first element of the predictor's result for an active task does not have
    exactly two components, and the tasks before it were processed without
    error, [evaluate] raises the ValueError and returns no outputs. *)
Theorem C3_first_element_shape_check
    self compute_metrics step predict_fn pre task post ds first :
  eval_tasks self = pre ++ task :: post →
  Forall (λ task, is_Ok (restored_tokens self predict_fn task)) pre →
  dataset_of self task = Ok ds →
  predict_fn ds !! 0%nat = Some first →
  length first ≠ 2%nat →
  ∃ t, evaluate self compute_metrics step predict_fn = (t, Err shape_error).
Proof.
  intros Htasks Hpre Hds Hfirst Hlen. rewrite evaluate_unfold, Htasks.
  assert (restored_tokens self predict_fn task = Err shape_error) as Herr.
  { unfold restored_tokens. rewrite Hds. cbn.
    unfold ordered_output_tokens, py_index. rewrite Hfirst. cbn.
    by rewrite bool_decide_eq_true_2. }
  destruct (prediction_loop_Err self predict_fn pre task post ∅ _ Hpre Herr)
    as [t Ht].
  exists t. by rewrite (M_bind_Err _ _ _ _ Ht).
Qed.

(** C9. The first element of the predictor's result is indexed before
    anything is checked: when the predictor returns an empty sequence for an
    active task, [evaluate] never returns outputs, and it raises IndexError
    as soon as that task is reached (the tasks before it having been
    processed without error), not the ValueError of the shape check. *)
Theorem C9_empty_prediction_index_error
    self compute_metrics step predict_fn pre task post ds :
  eval_tasks self = pre ++ task :: post →
  dataset_of self task = Ok ds →
  predict_fn ds = [] →
  (∀ r, (evaluate self compute_metrics step predict_fn).2 ≠ Ok r)
  ∧ (Forall (λ task, is_Ok (restored_tokens self predict_fn task)) pre →
     ∃ t, evaluate self compute_metrics step predict_fn = (t, Err IndexError)).
Proof.
  intros Htasks Hds Hempty.
  assert (restored_tokens self predict_fn task = Err IndexError) as Herr.
  { unfold restored_tokens. rewrite Hds. cbn. by rewrite Hempty. }
  split.
  - intros r Hr. rewrite evaluate_unfold, M_bind_snd in Hr.
    destruct (for_fold _ _ _).2 as [outs|e] eqn:Hloop; [|done].
    apply prediction_loop_inv in Hloop. rewrite Htasks in Hloop.
    apply Forall_app in Hloop as [_ [[a Ha] _]%Forall_cons]. congruence.
  - intros Hpre. rewrite evaluate_unfold, Htasks.
    destruct (prediction_loop_Err self predict_fn pre task post ∅ _ Hpre Herr)
      as [t Ht].
    exists t. by rewrite (M_bind_Err _ _ _ _ Ht).
Qed.

End Evaluate.

(** ** Construction *)

Section Construction.
Context {Example ModelEx Value MetricValue : Type}.
Local Abbreviation Task := (@Task Example Value MetricValue).
Local Abbreviation Evaluator := (@Evaluator Example ModelEx Value MetricValue).
Implicit Types (self : Evaluator) (task : Task) (tasks : list Task).
Implicit Types (given max_lengths : gmap string Z).

Lemma M_lift_bind {A B} (f : A → M MetricValue B) (a : A) :
  lift (Ok a) ≫= f = f a.
Proof. rewrite M_bind_fst_snd. cbn. by destruct (f a). Qed.

Lemma M_emit_bind {B} (f : unit → M MetricValue B) (e : event MetricValue) :
  emit e ≫= f = (e :: (f tt).1, (f tt).2).
Proof. by rewrite M_bind_fst_snd. Qed.

Lemma M_ret_bind {A B} (f : A → M MetricValue B) (a : A) : mret a ≫= f = f a.
Proof. apply M_lift_bind. Qed.

Lemma reconcile_equal given max_lengths li lt :
  given !! "inputs" = Some li → max_lengths !! "inputs" = Some li →
  given !! "targets" = Some lt → max_lengths !! "targets" = Some lt →
  reconcile_lengths (MetricValue := MetricValue) (Some given) max_lengths
  = ([], Ok None).
Proof.
  intros Hgi Hmi Hgt Hmt. unfold reconcile_lengths, py_getitem.
  rewrite Hgi, Hmi, Hgt, Hmt, !M_lift_bind, !Z.gtb_ltb, !Z.ltb_irrefl.
  by rewrite !M_ret_bind.
Qed.

Lemma reconcile_insufficient given max_lengths gi mi gt mt :
  given !! "inputs" = Some gi → max_lengths !! "inputs" = Some mi →
  given !! "targets" = Some gt → max_lengths !! "targets" = Some mt →
  gi < mi ∨ gt < mt →
  reconcile_lengths (MetricValue := MetricValue) (Some given) max_lengths
  = ([LogWarning InsufficientLengths], Ok (Some given)).
Proof.
  intros Hgi Hmi Hgt Hmt Hlt. unfold reconcile_lengths, py_getitem.
  rewrite Hgi, Hmi, Hgt, Hmt, !M_lift_bind.
  destruct (Z.ltb_spec gi mi).
  - by rewrite M_ret_bind.
  - rewrite M_ret_bind.
    destruct (Z.ltb_spec gt mt); [done|lia].
Qed.

Lemma reconcile_longer given max_lengths gi mi gt mt :
  given !! "inputs" = Some gi → max_lengths !! "inputs" = Some mi →
  given !! "targets" = Some gt → max_lengths !! "targets" = Some mt →
  mi ≤ gi → mt ≤ gt → mi < gi ∨ mt < gt →
  reconcile_lengths (MetricValue := MetricValue) (Some given) max_lengths
  = ([LogWarning LongerThanNecessary], Ok (Some given)).
Proof.
  intros Hgi Hmi Hgt Hmt Hi Ht Hlt. unfold reconcile_lengths, py_getitem.
  rewrite Hgi, Hmi, Hgt, Hmt, !M_lift_bind, !Z.gtb_ltb.
  destruct (Z.ltb_spec gi mi); [lia|]. rewrite M_ret_bind.
  destruct (Z.ltb_spec gt mt); [lia|].
  destruct (Z.ltb_spec mi gi).
  - by rewrite M_ret_bind.
  - rewrite M_ret_bind.
    destruct (Z.ltb_spec mt gt); [done|lia].
Qed.

Lemma conversion_body_Ok
    (feature_converter : list Example → gmap string Z → list ModelEx)
    (task_datasets : gmap string (list Example)) lengths cached task :
  is_Some (task_datasets !! name task) →
  conversion_body (MetricValue := MetricValue)
    feature_converter task_datasets (Some lengths) cached task
  = ([CallFeatureConverter (name task)],
     Ok (converted feature_converter task_datasets lengths cached task)).
Proof.
  intros [raw Hraw]. unfold conversion_body, converted, py_getitem.
  rewrite Hraw, !M_lift_bind, M_emit_bind. cbn.
  by rewrite (lookup_total_correct _ _ _ Hraw).
Qed.

Lemma conversion_loop_Ok
    (feature_converter : list Example → gmap string Z → list ModelEx)
    (task_datasets : gmap string (list Example)) lengths cached tasks :
  Forall (λ task, is_Some (task_datasets !! name task)) tasks →
  for_fold (MetricValue := MetricValue) tasks cached
    (conversion_body feature_converter task_datasets (Some lengths))
  = ((λ task, CallFeatureConverter (name task)) <$> tasks,
     Ok (foldl (converted feature_converter task_datasets lengths) cached tasks)).
Proof.
  intros H. revert cached. induction H as [|task tasks Ht _ IH]; intros cached.
  - done.
  - cbn [for_fold]. rewrite (M_bind_Ok _ _ _ _ (conversion_body_Ok _ _ _ cached _ Ht)).
    by rewrite IH.
Qed.

Lemma conversion_body_unbound
    (feature_converter : list Example → gmap string Z → list ModelEx)
    (task_datasets : gmap string (list Example)) cached task :
  is_Some (task_datasets !! name task) →
  conversion_body (MetricValue := MetricValue)
    feature_converter task_datasets None cached task
  = ([], Err (UnboundLocalError "lengths")).
Proof.
  intros [raw Hraw]. unfold conversion_body, py_getitem.
  by rewrite Hraw, M_lift_bind.
Qed.

Lemma conversion_loop_unbound
    (feature_converter : list Example → gmap string Z → list ModelEx)
    (task_datasets : gmap string (list Example)) cached task tasks :
  is_Some (task_datasets !! name task) →
  for_fold (MetricValue := MetricValue) (task :: tasks) cached
    (conversion_body feature_converter task_datasets None)
  = ([], Err (UnboundLocalError "lengths")).
Proof.
  intros H. cbn [for_fold].
  by rewrite (M_bind_Err _ _ _ _ (conversion_body_unbound _ _ cached _ H)).
Qed.

Lemma conversion_body_inv
    (feature_converter : list Example → gmap string Z → list ModelEx)
    (task_datasets : gmap string (list Example)) lengths cached task ds :
  (conversion_body (MetricValue := MetricValue)
     feature_converter task_datasets lengths cached task).2 = Ok ds →
  conversion_body (MetricValue := MetricValue)
    feature_converter task_datasets lengths cached task
  = ([CallFeatureConverter (name task)], Ok ds)
  ∧ is_Some (ds !! name task)
  ∧ ∀ k, is_Some (cached !! k) → is_Some (ds !! k).
Proof.
  unfold conversion_body, py_getitem.
  destruct (task_datasets !! name task) as [raw|]; [|done].
  rewrite M_lift_bind. destruct lengths as [lengths|]; [|done].
  rewrite M_lift_bind, M_emit_bind. cbn. intros [= <-]. split; [done|]. split.
  - rewrite lookup_insert_eq. by eexists.
  - intros k Hk. destruct (decide (name task = k)) as [->|?].
    + rewrite lookup_insert_eq. by eexists.
    + by rewrite lookup_insert_ne.
Qed.

(** The conversion loop returns only when every task had a dataset and
    [lengths] was assigned; it then called the converter once per task. *)
Lemma conversion_loop_inv
    (feature_converter : list Example → gmap string Z → list ModelEx)
    (task_datasets : gmap string (list Example)) lengths cached tasks t ds :
  for_fold (MetricValue := MetricValue) tasks cached
    (conversion_body feature_converter task_datasets lengths) = (t, Ok ds) →
  t = (λ task, CallFeatureConverter (name task)) <$> tasks
  ∧ (∀ task, task ∈ tasks → is_Some (ds !! name task))
  ∧ (∀ k, is_Some (cached !! k) → is_Some (ds !! k)).
Proof.
  revert cached t. induction tasks as [|task tasks IH]; intros cached t H.
  - injection H as <- <-. split; [done|]. split; [|done].
    by intros ? ?%elem_of_nil.
  - cbn [for_fold] in H. rewrite M_bind_fst_snd in H.
    destruct (conversion_body _ _ _ cached task).2 as [ds1|e] eqn:Hbody; [|done].
    destruct (conversion_body_inv _ _ _ _ _ _ Hbody) as (Heq & Hnew & Hold).
    rewrite Heq in H. cbn [fst snd] in H.
    destruct (for_fold tasks ds1 _) as [t' [ds'|e]] eqn:Hloop; [|done].
    injection H as <- <-.
    destruct (IH _ _ Hloop) as (-> & Hin & Hacc). split; [done|]. split.
    + intros task' [->|?]%elem_of_cons; [|by apply Hin]. by apply Hacc.
    + intros k Hk. by apply Hacc, Hold.
Qed.

Lemma reconcile_trace (sequence_lengths : option (gmap string Z)) max_lengths :
  Forall (λ e, is_build e = false)
    (reconcile_lengths (MetricValue := MetricValue) sequence_lengths max_lengths).1.
Proof. unfold reconcile_lengths. repeat trace_step. Qed.

Lemma open_writer_trace (summary_dir : option string) :
  Forall (λ e, is_build e = false)
    (open_writer (MetricValue := MetricValue) summary_dir).1.
Proof. unfold open_writer. repeat trace_step. Qed.

Lemma open_writer_Ok (summary_dir : option string) :
  (open_writer (MetricValue := MetricValue) summary_dir).2
  = Ok (writer_attr (MetricValue := MetricValue) summary_dir).
Proof.
  unfold writer_attr, open_writer. destruct summary_dir as [dir|]; [|done].
  by case_bool_decide.
Qed.

Lemma filter_not_build (t : list (event MetricValue)) :
  Forall (λ e, is_build e = false) t → filter is_build t = [].
Proof.
  induction 1 as [|e t He _ IH]; [done|].
  rewrite filter_cons_False; [done|]. rewrite He. by intros [].
Qed.

Lemma filter_converter_calls tasks :
  filter is_build
    ((λ task, CallFeatureConverter (MetricValue := MetricValue) (name task)) <$> tasks)
  = (λ task, CallFeatureConverter (name task)) <$> tasks.
Proof.
  induction tasks as [|task tasks IH]; [done|].
  cbn [fmap list_fmap]. rewrite filter_cons_True by done. f_equal. apply IH.
Qed.

Lemma for_fold_snd_ext {A S} (l : list A) (s : S)
    (body body' : S → A → M MetricValue S) :
  (∀ s x, (body s x).2 = (body' s x).2) →
  (for_fold l s body).2 = (for_fold l s body').2.
Proof.
  intros Hb. revert s. induction l as [|x l IH]; intros s; [done|].
  cbn [for_fold]. rewrite !M_bind_snd, Hb. by destruct (body' s x).2.
Qed.

Lemma for_each_snd_Ok {A} (l : list A) (body : A → M MetricValue ()) :
  (∀ x, (body x).2 = Ok tt) → (for_each l body).2 = Ok tt.
Proof.
  intros Hb. unfold for_each. induction l as [|x l IH]; [done|].
  cbn [for_fold]. by rewrite M_bind_snd, Hb.
Qed.

Lemma for_each_snd_cases {A} (l : list A) (body : A → M MetricValue ()) e :
  (∀ x, (body x).2 = Ok tt ∨ (body x).2 = Err e) →
  (for_each l body).2 = Ok tt ∨ (for_each l body).2 = Err e.
Proof.
  intros Hb. unfold for_each. induction l as [|x l IH]; [by left|].
  cbn [for_fold]. rewrite M_bind_snd.
  destruct (Hb x) as [->| ->]; [|by right]. done.
Qed.

(** Whether [_log_eval_results] returns depends on [_summary_writer] only. *)
Lemma log_eval_results_snd self (metrics : list metrics_dict) step task_name :
  (_log_eval_results self metrics step task_name).2
  = match summary_writer self with Ok _ => Ok tt | Err e => Err e end.
Proof.
  unfold _log_eval_results. rewrite M_bind_snd.
  assert (∃ s : Z, (match step with
                    | Some s => mret s
                    | None => emit (LogWarning StepNotProvided);; mret (-1)
                    end : M MetricValue Z).2 = Ok s) as [s ->].
  { destruct step; by eexists. }
  rewrite M_bind_snd. destruct (summary_writer self) as [w|e].
  - rewrite for_each_snd_Ok.
    + rewrite M_lift_bind. by destruct w.
    + intros dict. apply for_each_snd_Ok. intros [metric_name metric_value].
      rewrite M_lift_bind, M_emit_bind, M_lift_bind. by destruct w.
  - match goal with
    | |- context [for_each metrics ?body] =>
        destruct (for_each_snd_cases metrics body e) as [-> | ->]; [|done..]
    end.
    intros dict. apply for_each_snd_cases. intros [metric_name metric_value].
    by right.
Qed.

Lemma evaluate_trace self compute_metrics step
    (predict_fn : list (Z * ModelEx) → list tuple) :
  Forall (λ e, is_build e = false)
    (evaluate self compute_metrics step predict_fn).1.
Proof.
  unfold evaluate, prediction_body, task_output_tokens, metrics_body,
    task_metrics, _log_eval_results, for_each.
  repeat trace_step.
Qed.

Lemma evaluate_step_independent self compute_metrics step step'
    (predict_fn : list (Z * ModelEx) → list tuple) :
  (evaluate self compute_metrics step predict_fn).2
  = (evaluate self compute_metrics step' predict_fn).2.
Proof.
  unfold evaluate. rewrite !M_bind_snd.
  destruct (for_fold _ _ _).2 as [outs|e]; [|done].
  destruct compute_metrics; [|done]. rewrite !M_bind_snd.
  rewrite (for_fold_snd_ext _ _ _ (metrics_body self step' outs)); [done|].
  intros acc task. unfold metrics_body. rewrite !M_bind_snd.
  destruct (task_metrics self outs task).2; [|done].
  by rewrite !M_bind_snd, !log_eval_results_snd.
Qed.

Section Init.
Variable get_subtasks : string → res (list Task).
Variable get_valid_eval_tasks : list Task → string → list Task.
Variable get_targets_and_examples :
  list Task → (Task → list Example) →
  gmap string (list Example) * gmap string (list Value)
  * gmap string (list Example) * gmap string Z.

Local Abbreviation init :=
  (__init__ (ModelEx := ModelEx) get_subtasks get_valid_eval_tasks
     get_targets_and_examples).

Lemma init_nonempty mixture_or_task_name feature_converter eval_split use_cached
    sequence_lengths summary_dir all_tasks task tasks
    examples targets task_datasets max_lengths :
  get_subtasks mixture_or_task_name = Ok all_tasks →
  get_valid_eval_tasks all_tasks eval_split = task :: tasks →
  get_targets_and_examples (task :: tasks)
    (λ task, get_dataset task eval_split false use_cached)
  = (examples, targets, task_datasets, max_lengths) →
  init mixture_or_task_name feature_converter eval_split use_cached
    sequence_lengths summary_dir
  = (emit CallGetTargetsAndExamples ;;
     lengths ← reconcile_lengths sequence_lengths max_lengths;
     ds ← for_fold (task :: tasks) ∅
            (conversion_body feature_converter task_datasets lengths);
     writer ← open_writer summary_dir;
     mret {| _eval_tasks := task :: tasks; _cached_ds := Some ds;
             _cached_examples := Some examples;
             _cached_targets := Some targets;
             _summary_writer := writer |}).
Proof.
  intros Hgs Hgv Hgte. unfold __init__. rewrite Hgs, M_lift_bind.
  cbv zeta. rewrite Hgv, Hgte. done.
Qed.

Lemma init_accepts mixture_or_task_name feature_converter eval_split use_cached
    sequence_lengths summary_dir all_tasks task tasks
    examples targets task_datasets max_lengths tw lengths :
  get_subtasks mixture_or_task_name = Ok all_tasks →
  get_valid_eval_tasks all_tasks eval_split = task :: tasks →
  get_targets_and_examples (task :: tasks)
    (λ task, get_dataset task eval_split false use_cached)
  = (examples, targets, task_datasets, max_lengths) →
  Forall (λ task, is_Some (task_datasets !! name task)) (task :: tasks) →
  reconcile_lengths sequence_lengths max_lengths = (tw, Ok (Some lengths)) →
  init mixture_or_task_name feature_converter eval_split use_cached
    sequence_lengths summary_dir
  = (CallGetTargetsAndExamples :: tw
       ++ ((λ task, CallFeatureConverter (name task)) <$> task :: tasks)
       ++ (open_writer summary_dir).1,
     Ok {| _eval_tasks := task :: tasks;
           _cached_ds := Some (foldl (converted feature_converter task_datasets lengths)
                                 ∅ (task :: tasks));
           _cached_examples := Some examples;
           _cached_targets := Some targets;
           _summary_writer := writer_attr (MetricValue := MetricValue) summary_dir |}).
Proof.
  intros Hgs Hgv Hgte Hcover Hrec.
  rewrite (init_nonempty _ _ _ _ _ _ _ _ _ _ _ _ _ Hgs Hgv Hgte).
  rewrite M_emit_bind, (M_bind_Ok _ _ _ _ Hrec).
  rewrite (M_bind_Ok _ _ _ _ (conversion_loop_Ok _ _ _ _ _ Hcover)).
  rewrite M_bind_fst_snd, open_writer_Ok. cbn [fst snd mret M_ret].
  by rewrite (right_id_L [] (++)).
Qed.

(** What a returning constructor has done: either it found no active task
    and left the caches unset, or it built the targets and examples once,
    converted each active task once, and cached a dataset for each. *)
Lemma init_inv mixture_or_task_name feature_converter eval_split use_cached
    sequence_lengths summary_dir t0 self :
  init mixture_or_task_name feature_converter eval_split use_cached
    sequence_lengths summary_dir = (t0, Ok self) →
  (eval_tasks self = [] ∧ t0 = [LogWarning NoValidEvalTask] ∧ self = unset)
  ∨ (∃ tw two ds,
       eval_tasks self ≠ []
       ∧ t0 = CallGetTargetsAndExamples :: tw
                ++ ((λ task, CallFeatureConverter (name task)) <$> eval_tasks self)
                ++ two
       ∧ Forall (λ e, is_build e = false) tw
       ∧ Forall (λ e, is_build e = false) two
       ∧ _cached_ds self = Some ds
       ∧ ∀ task, task ∈ eval_tasks self → is_Some (ds !! name task)).
Proof.
  intros H.
  destruct (get_subtasks mixture_or_task_name) as [all_tasks|e] eqn:Hgs.
  2:{ unfold __init__ in H. by rewrite Hgs in H. }
  destruct (get_valid_eval_tasks all_tasks eval_split) as [|task tasks] eqn:Hgv.
  { left. unfold __init__ in H. rewrite Hgs, M_lift_bind in H.
    cbv zeta in H. rewrite Hgv, M_emit_bind in H. by injection H as <- <-. }
  right.
  destruct (get_targets_and_examples (task :: tasks)
              (λ task, get_dataset task eval_split false use_cached))
    as [[[examples targets] task_datasets] max_lengths] eqn:Hgte.
  rewrite (init_nonempty _ _ _ _ _ _ _ _ _ _ _ _ _ Hgs Hgv Hgte) in H.
  rewrite M_emit_bind, M_bind_fst_snd in H.
  pose proof (reconcile_trace sequence_lengths max_lengths) as Htw.
  destruct (reconcile_lengths sequence_lengths max_lengths) as [tw [lengths|e]];
    [|done].
  cbn [fst snd] in H, Htw. rewrite M_bind_fst_snd in H.
  destruct (for_fold (task :: tasks) ∅ _) as [tc [ds|e]] eqn:Hloop; [|done].
  destruct (conversion_loop_inv _ _ _ _ _ _ _ Hloop) as (-> & Hin & _).
  cbn [fst snd] in H. rewrite M_bind_fst_snd, open_writer_Ok in H.
  cbn [fst snd mret M_ret] in H. rewrite (right_id_L [] (++)) in H.
  injection H as <- <-.
  exists tw, (open_writer summary_dir).1, ds.
  split; [done|]. split; [done|]. split; [done|].
  split; [apply open_writer_trace|]. done.
Qed.

(** Every active task of a constructed evaluator has a cached dataset. *)
Lemma constructed_datasets mixture_or_task_name feature_converter eval_split
    use_cached sequence_lengths summary_dir t0 self :
  init mixture_or_task_name feature_converter eval_split use_cached
    sequence_lengths summary_dir = (t0, Ok self) →
  ∀ task, task ∈ eval_tasks self → is_Ok (dataset_of self task).
Proof.
  intros H. apply init_inv in H
    as [(Htasks & _ & _)|(tw & two & ds & _ & _ & _ & _ & Hds & Hin)].
  - rewrite Htasks. by intros ? ?%elem_of_nil.
  - intros task Ht. destruct (Hin task Ht) as [d Hd].
    exists d. unfold dataset_of, cached_ds. rewrite Hds. cbn.
    unfold py_getitem. by rewrite Hd.
Qed.

(** C7 (amended). On every constructed evaluator, with
    [compute_metrics=False], whenever the predictor's result for every
    active task passes the shape check and the ordering step, [evaluate]
    returns the mapping of per-task output tokens (one entry per active
    task) and [None] for the metrics; the only collaborator it calls is the
    predictor: nothing is decoded, post-processed, scored or logged. *)
Theorem C7_outputs_without_metrics
    mixture_or_task_name feature_converter eval_split use_cached
    sequence_lengths summary_dir t0 self step
    (predict_fn : list (Z * ModelEx) → list tuple) :
  init mixture_or_task_name feature_converter eval_split use_cached
    sequence_lengths summary_dir = (t0, Ok self) →
  (∀ task ds, task ∈ eval_tasks self → dataset_of self task = Ok ds →
     is_Ok (ordered_output_tokens (predict_fn ds))) →
  evaluate self false step predict_fn
  = ((λ task, CallPredictFn (name task)) <$> eval_tasks self,
     Ok (collected self predict_fn, None))
  ∧ ∀ task, task ∈ eval_tasks self →
      is_Some (collected self predict_fn !! name task).
Proof.
  intros Hinit Hpred.
  assert (Forall (λ task, is_Ok (restored_tokens self predict_fn task))
            (eval_tasks self)) as Hok.
  { apply Forall_forall. intros task Hin.
    destruct (constructed_datasets _ _ _ _ _ _ _ _ Hinit task Hin) as [ds Hds].
    destruct (Hpred task ds Hin Hds) as [tokens Htok].
    exists tokens. unfold restored_tokens. by rewrite Hds. }
  split.
  - by apply evaluate_without_metrics.
  - intros task Hin. by apply collected_lookup.
Qed.

(** C4. When no task has a valid split and a metric function, construction
    returns (after the warning), and [evaluate(compute_metrics=True)] on the
    resulting evaluator returns exactly an empty outputs mapping and an
    empty, not None, metrics mapping, without calling anything. *)
Theorem C4_no_active_task_empty_results
    mixture_or_task_name feature_converter eval_split use_cached
    sequence_lengths summary_dir all_tasks :
  get_subtasks mixture_or_task_name = Ok all_tasks →
  get_valid_eval_tasks all_tasks eval_split = [] →
  ∃ self,
    init mixture_or_task_name feature_converter eval_split use_cached
      sequence_lengths summary_dir = ([LogWarning NoValidEvalTask], Ok self)
    ∧ eval_tasks self = []
    ∧ ∀ step predict_fn,
        evaluate self true step predict_fn = ([], Ok (∅, Some ∅)).
Proof.
  intros Hgs Hgv. exists unset. split; [|done].
  unfold __init__. rewrite Hgs, M_lift_bind. cbv zeta. by rewrite Hgv.
Qed.

(** C2 (evaluation of the code where the claim fails). With at least one
    active task and supplied lengths equal to the observed maxima on both
    features, neither branch of the length check assigns [lengths]:
    construction raises UnboundLocalError at the first feature conversion,
    having emitted no warning. *)
Theorem C2_equal_lengths_unbound
    mixture_or_task_name feature_converter eval_split use_cached
    summary_dir all_tasks task tasks examples targets task_datasets
    given max_lengths li lt :
  get_subtasks mixture_or_task_name = Ok all_tasks →
  get_valid_eval_tasks all_tasks eval_split = task :: tasks →
  get_targets_and_examples (task :: tasks)
    (λ task, get_dataset task eval_split false use_cached)
  = (examples, targets, task_datasets, max_lengths) →
  is_Some (task_datasets !! name task) →
  given !! "inputs" = Some li → max_lengths !! "inputs" = Some li →
  given !! "targets" = Some lt → max_lengths !! "targets" = Some lt →
  init mixture_or_task_name feature_converter eval_split use_cached
    (Some given) summary_dir
  = ([CallGetTargetsAndExamples], Err (UnboundLocalError "lengths")).
Proof.
  intros Hgs Hgv Hgte Hds Hgi Hmi Hgt Hmt.
  rewrite (init_nonempty _ _ _ _ _ _ _ _ _ _ _ _ _ Hgs Hgv Hgte).
  rewrite M_emit_bind.
  rewrite (M_bind_Ok _ _ _ _ (reconcile_equal _ _ _ _ Hgi Hmi Hgt Hmt)).
  by rewrite (M_bind_Err _ _ _ _ (conversion_loop_unbound _ _ _ _ _ Hds)).
Qed.

(** C8 (amended). With at least one active task and supplied lengths for
    both features: when some feature's length is strictly greater than its
    observed maximum and none is strictly less, construction accepts the
    supplied lengths (they are the ones passed to the feature converter) and
    emits the wasted-computation warning, and no other; when some feature's
    length is strictly less, it accepts them as well but emits the
    truncation warning only. *)
Theorem C8_longer_lengths_warning
    mixture_or_task_name feature_converter eval_split use_cached
    summary_dir all_tasks task tasks examples targets task_datasets
    given max_lengths gi mi gt mt :
  get_subtasks mixture_or_task_name = Ok all_tasks →
  get_valid_eval_tasks all_tasks eval_split = task :: tasks →
  get_targets_and_examples (task :: tasks)
    (λ task, get_dataset task eval_split false use_cached)
  = (examples, targets, task_datasets, max_lengths) →
  Forall (λ task, is_Some (task_datasets !! name task)) (task :: tasks) →
  given !! "inputs" = Some gi → max_lengths !! "inputs" = Some mi →
  given !! "targets" = Some gt → max_lengths !! "targets" = Some mt →
  let accepted_with (w : warning) :=
    init mixture_or_task_name feature_converter eval_split use_cached
      (Some given) summary_dir
    = (CallGetTargetsAndExamples :: [LogWarning w]
         ++ ((λ task, CallFeatureConverter (name task)) <$> task :: tasks)
         ++ (open_writer summary_dir).1,
       Ok {| _eval_tasks := task :: tasks;
             _cached_ds := Some (foldl (converted feature_converter task_datasets given)
                                   ∅ (task :: tasks));
             _cached_examples := Some examples;
             _cached_targets := Some targets;
             _summary_writer := writer_attr (MetricValue := MetricValue) summary_dir |}) in
  (mi ≤ gi → mt ≤ gt → mi < gi ∨ mt < gt → accepted_with LongerThanNecessary)
  ∧ (gi < mi ∨ gt < mt → accepted_with InsufficientLengths).
Proof.
  intros Hgs Hgv Hgte Hcover Hgi Hmi Hgt Hmt accepted_with.
  split.
  - intros Hi Ht Hlt. unfold accepted_with.
    apply (init_accepts _ _ _ _ _ _ _ _ _ _ _ _ _ _ _ Hgs Hgv Hgte Hcover).
    by eapply reconcile_longer.
  - intros Hlt. unfold accepted_with.
    apply (init_accepts _ _ _ _ _ _ _ _ _ _ _ _ _ _ _ Hgs Hgv Hgte Hcover).
    by eapply reconcile_insufficient.
Qed.

(** C6. A returning constructor builds the targets and examples once and
    converts and caches the dataset of each active task once; [evaluate]
    takes the evaluator as a read-only value, builds and converts nothing,
    and its outcome (outputs and metrics, or the exception) is a function of
    the evaluator, [compute_metrics] and the predictor alone, so a second
    call with the same predictor yields the same outputs and metrics,
    whatever the step numbers. *)
Theorem C6_cached_once_and_repeatable
    mixture_or_task_name feature_converter eval_split use_cached
    sequence_lengths summary_dir t0 self :
  init mixture_or_task_name feature_converter eval_split use_cached
    sequence_lengths summary_dir = (t0, Ok self) →
  filter is_build t0
  = match eval_tasks self with
    | [] => []
    | _ :: _ => CallGetTargetsAndExamples
                :: ((λ task, CallFeatureConverter (name task)) <$> eval_tasks self)
    end
  ∧ (∀ task, task ∈ eval_tasks self → is_Ok (dataset_of self task))
  ∧ ∀ compute_metrics step step' predict_fn,
      filter is_build (evaluate self compute_metrics step predict_fn).1 = []
      ∧ (evaluate self compute_metrics step predict_fn).2
        = (evaluate self compute_metrics step' predict_fn).2.
Proof.
  intros H. pose proof H as Hinit. apply init_inv in H
    as [(Htasks & -> & ->)|(tw & two & ds & Hne & -> & Htw & Htwo & Hds & Hin)].
  - split; [done|]. split; [by intros ? ?%elem_of_nil|].
    intros. split; [|apply evaluate_step_independent].
    apply filter_not_build, evaluate_trace.
  - split; [|split].
    + destruct (eval_tasks self) as [|task tasks] eqn:Htasks; [done|].
      rewrite filter_cons_True by done. f_equal.
      rewrite !filter_app, (filter_not_build tw), (filter_not_build two) by done.
      rewrite filter_converter_calls. by rewrite (right_id_L [] (++)).
    + by eapply constructed_datasets.
    + intros. split; [|apply evaluate_step_independent].
      apply filter_not_build, evaluate_trace.
Qed.

End Init.

End Construction.

(** ** The metric loop of [evaluate] *)

Section Metrics.
Context {Example ModelEx Value MetricValue : Type}.
Local Abbreviation Task := (@Task Example Value MetricValue).
Local Abbreviation Evaluator := (@Evaluator Example ModelEx Value MetricValue).
Implicit Types (self : Evaluator) (task : Task) (tasks : list Task).
Implicit Types (predict_fn : list (Z * ModelEx) → list tuple).

Lemma pairs_tokens (rows : list tuple) :
  Forall is_pair rows →
  ∃ toks, tokens_of <$> rows = Seq <$> toks ∧ length toks = length rows.
Proof.
  induction 1 as [|x rows (i & l & ->) _ (toks & Heq & Hlen)].
  - by exists [].
  - exists (l :: toks). cbn. by rewrite Heq, Hlen.
Qed.

(** Any non-empty list of well-formed pairs passes the shape check and the
    ordering step, whatever the indices and however many pairs there are. *)
Lemma ordered_output_tokens_pairs (rows : list tuple) :
  rows ≠ [] → Forall is_pair rows →
  ∃ toks, ordered_output_tokens rows = Ok (Seq <$> toks)
          ∧ length toks = length rows.
Proof.
  intros Hne Hpairs. unfold ordered_output_tokens.
  destruct rows as [|x rows]; [done|].
  pose proof Hpairs as [(i & l & ->) _]%Forall_cons.
  cbn -[sorted_by_first]. unfold sorted_by_first.
  rewrite keys_of_rows.
  2:{ eapply Forall_impl; [exact Hpairs|]. intros y (j & k & ->). by eexists. }
  rewrite res_ret_bind, zip_keys.
  destruct (sort_decorated_sorted (decorate <$> ([Int i; Seq l] :: rows)))
    as (s & -> & Hs & _).
  { apply Forall_fmap. eapply Forall_impl; [exact Hpairs|].
    intros y (j & k & ->). by exists j. }
  cbn.
  assert (s.*2 ≡ₚ [Int i; Seq l] :: rows) as Hperm.
  { rewrite Hs, <-list_fmap_compose. by rewrite list_fmap_id. }
  assert (Forall is_pair s.*2) as Hs2 by (by rewrite Hperm).
  rewrite (mapM_res_Ok _ tokens_of).
  - destruct (pairs_tokens _ Hs2) as (toks & -> & Hlen).
    exists toks. split; [done|]. by rewrite Hlen, Hperm.
  - eapply Forall_impl; [exact Hs2|]. by intros y (j & k & ->).
Qed.

Lemma lift_bind_snd {A B} (r : res A) (f : A → M MetricValue B) :
  (lift r ≫= f).2 = match r with Ok a => (f a).2 | Err e => Err e end.
Proof. by rewrite M_bind_snd. Qed.

Lemma mapM_lift_snd {A B C} (f : A → res B) (h : B → C)
    (e : event MetricValue) (l : list A) :
  (mapM (λ x, y ← lift (f x); emit e;; mret (h y)) l).2
  = (ys ← mapM f l; Ok (h <$> ys)).
Proof.
  induction l as [|x l IH]; [done|].
  cbn [mapM]. rewrite M_bind_snd, lift_bind_snd.
  destruct (f x) as [y|err]; [|done]. rewrite res_ret_bind.
  rewrite M_bind_fst_snd. cbn [fst snd emit mret M_ret].
  rewrite M_bind_snd, IH. by destruct (mapM f l).
Qed.

Lemma task_metrics_snd self (all_output_tokens : gmap string (list obj)) task :
  (task_metrics self all_output_tokens task).2
  = task_metrics_value self all_output_tokens task.
Proof.
  unfold task_metrics, task_metrics_value.
  rewrite lift_bind_snd.
  destruct (cached_examples self ≫= _) as [task_examples|e]; [|done].
  rewrite res_ret_bind, lift_bind_snd.
  destruct (cached_targets self ≫= _) as [targets|e]; [|done].
  rewrite res_ret_bind, lift_bind_snd.
  destruct (py_getitem all_output_tokens (name task)) as [output_tokens|e]; [|done].
  rewrite res_ret_bind, lift_bind_snd.
  destruct (py_getitem (output_features task) "targets" ≫= _) as [task_vocab|e];
    [|done].
  rewrite res_ret_bind, M_bind_snd, mapM_lift_snd.
  destruct (mapM int_tokens output_tokens) as [ids|e]; [|done].
  rewrite !res_ret_bind, M_bind_snd.
  rewrite (mapM_snd_Ok _ (λ p : Value * Example, postprocess_fn task p.1 p.2 false));
    [|by intros []].
  by rewrite (mapM_snd_Ok _
    (λ metric_fn : list Value → list Value → metrics_dict,
       metric_fn targets
         ((λ p : Value * Example, postprocess_fn task p.1 p.2 false)
            <$> zip (decode task_vocab <$> ids) task_examples))).
Qed.

Lemma metrics_body_snd self step (all_output_tokens : gmap string (list obj))
    (acc : gmap string (list metrics_dict)) task w :
  summary_writer self = Ok w →
  is_Ok (task_metrics_value self all_output_tokens task) →
  (metrics_body self step all_output_tokens acc task).2
  = Ok (store_metrics self all_output_tokens acc task).
Proof.
  intros Hw [metrics Hm]. unfold metrics_body, store_metrics.
  rewrite M_bind_snd, task_metrics_snd, Hm, M_bind_snd, log_eval_results_snd.
  by rewrite Hw.
Qed.

(** [evaluate(compute_metrics=True)] returns when the predictor's results
    pass the ordering step, every task's metric computation succeeds and the
    summary-writer attribute is set. *)
Lemma evaluate_with_metrics self step predict_fn w :
  Forall (λ task, is_Ok (restored_tokens self predict_fn task)) (eval_tasks self) →
  summary_writer self = Ok w →
  Forall (λ task, is_Ok (task_metrics_value self (collected self predict_fn) task))
    (eval_tasks self) →
  (evaluate self true step predict_fn).2
  = Ok (collected self predict_fn,
        Some (collected_metrics self (collected self predict_fn))).
Proof.
  intros Hok Hw Hm. rewrite evaluate_unfold, M_bind_snd.
  rewrite (prediction_loop_Ok self predict_fn _ ∅ Hok). cbn [snd].
  fold (collected self predict_fn). rewrite M_bind_snd.
  rewrite (for_fold_snd_Ok (store_metrics self (collected self predict_fn))); [done|].
  intros acc task Hin. eapply metrics_body_snd; [done|].
  by eapply Forall_forall in Hm.
Qed.

(** Python dicts keyed by task name: with distinct names, each task finds
    its own entry. *)
Lemma foldl_store_other {B} (f : Task → res B) tasks (acc : gmap string B) k :
  k ∉ name <$> tasks →
  foldl (λ acc t, match f t with Ok b => <[name t := b]> acc | Err _ => acc end)
    acc tasks !! k = acc !! k.
Proof.
  revert acc. induction tasks as [|t tasks IH]; intros acc Hk; [done|].
  cbn in *. apply not_elem_of_cons in Hk as [Hne Hk]. rewrite IH by done.
  destruct (f t); [|done]. by rewrite lookup_insert_ne.
Qed.

Lemma foldl_store_lookup {B} (f : Task → res B) tasks (acc : gmap string B) task b :
  NoDup (name <$> tasks) → task ∈ tasks → f task = Ok b →
  foldl (λ acc t, match f t with Ok b => <[name t := b]> acc | Err _ => acc end)
    acc tasks !! name task = Some b.
Proof.
  revert acc. induction tasks as [|t tasks IH]; intros acc Hnd Hin Hf.
  { by apply elem_of_nil in Hin. }
  cbn in *. apply NoDup_cons in Hnd as [Hfresh Hnd].
  apply elem_of_cons in Hin as [->|Hin]; [|by apply IH].
  rewrite foldl_store_other by done. rewrite Hf. by rewrite lookup_insert_eq.
Qed.

Lemma mapM_int_tokens (toks : list (list Z)) :
  mapM int_tokens (Seq <$> toks) = Ok toks.
Proof.
  induction toks as [|l toks IH]; [done|].
  cbn [fmap list_fmap mapM]. cbn [int_tokens]. by rewrite res_ret_bind, IH.
Qed.

Lemma task_metrics_value_aligned self (all_output_tokens : gmap string (list obj))
    task toks exs examples tgs targets feat :
  all_output_tokens !! name task = Some (Seq <$> toks) →
  cached_examples self = Ok exs → exs !! name task = Some examples →
  cached_targets self = Ok tgs → tgs !! name task = Some targets →
  output_features task !! "targets" = Some feat →
  task_metrics_value self all_output_tokens task
  = Ok ((λ metric_fn : list Value → list Value → metrics_dict,
           metric_fn targets (predictions_of task (vocabulary feat) toks examples))
          <$> metric_fns task).
Proof.
  intros Hout Hexs Hex Htgs Htg Hfeat.
  unfold task_metrics_value, py_getitem.
  rewrite Hexs, Htgs, !res_ret_bind, Hex, Htg, Hout, Hfeat, !res_ret_bind.
  by rewrite mapM_int_tokens, res_ret_bind.
Qed.

Lemma restored_tokens_pairs self predict_fn task ds :
  dataset_of self task = Ok ds →
  predict_fn ds ≠ [] → Forall is_pair (predict_fn ds) →
  ∃ toks, restored_tokens self predict_fn task = Ok (Seq <$> toks)
          ∧ length toks = length (predict_fn ds).
Proof.
  intros Hds Hne Hpairs. unfold restored_tokens. rewrite Hds, res_ret_bind.
  by apply ordered_output_tokens_pairs.
Qed.

(** C10. The number of pairs and the indices they carry are never checked
    against the cached examples: whenever the predictor returns, for every
    active task, a non-empty list of well-formed pairs (with any indices
    and in any number), [evaluate] accepts it, and the task's output has as
    many token sequences as pairs were returned.  During metric computation
    the decoded outputs are zipped with the raw cached examples, so the
    predictions handed to the metric functions have the length of the
    shorter of the two; with the summary-writer attribute set the call
    returns these outputs and metrics. *)
Theorem C10_pair_count_not_validated self step predict_fn :
  NoDup (name <$> eval_tasks self) →
  (∀ task, task ∈ eval_tasks self →
     ∃ ds, dataset_of self task = Ok ds ∧ predict_fn ds ≠ []
           ∧ Forall is_pair (predict_fn ds)) →
  evaluate self false step predict_fn
  = ((λ task, CallPredictFn (name task)) <$> eval_tasks self,
     Ok (collected self predict_fn, None))
  ∧ (∀ task ds, task ∈ eval_tasks self → dataset_of self task = Ok ds →
       ∃ toks, collected self predict_fn !! name task = Some (Seq <$> toks)
               ∧ length toks = length (predict_fn ds))
  ∧ (∀ task toks exs examples tgs targets feat,
       task ∈ eval_tasks self →
       collected self predict_fn !! name task = Some (Seq <$> toks) →
       cached_examples self = Ok exs → exs !! name task = Some examples →
       cached_targets self = Ok tgs → tgs !! name task = Some targets →
       output_features task !! "targets" = Some feat →
       let predictions := predictions_of task (vocabulary feat) toks examples in
       length predictions = (length toks `min` length examples)%nat
       ∧ (task_metrics self (collected self predict_fn) task).2
         = Ok ((λ metric_fn : list Value → list Value → metrics_dict,
                  metric_fn targets predictions) <$> metric_fns task)
       ∧ collected_metrics self (collected self predict_fn) !! name task
         = Some ((λ metric_fn : list Value → list Value → metrics_dict,
                    metric_fn targets predictions) <$> metric_fns task))
  ∧ (∀ w, summary_writer self = Ok w →
       Forall (λ task, is_Ok (task_metrics_value self (collected self predict_fn) task))
         (eval_tasks self) →
       (evaluate self true step predict_fn).2
       = Ok (collected self predict_fn,
             Some (collected_metrics self (collected self predict_fn)))).
Proof.
  intros Hnd Hpairs.
  assert (Forall (λ task, is_Ok (restored_tokens self predict_fn task))
            (eval_tasks self)) as Hok.
  { apply Forall_forall. intros task Hin.
    destruct (Hpairs task Hin) as (ds & Hds & Hne & Hp).
    destruct (restored_tokens_pairs _ _ _ _ Hds Hne Hp) as (toks & -> & _).
    by eexists. }
  split; [by apply evaluate_without_metrics|]. split; [|split].
  - intros task ds Hin Hds.
    destruct (Hpairs task Hin) as (ds' & Hds' & Hne & Hp).
    assert (ds' = ds) as -> by congruence.
    destruct (restored_tokens_pairs _ _ _ _ Hds Hne Hp) as (toks & Hr & Hlen).
    exists toks. split; [|done].
    by apply (foldl_store_lookup (restored_tokens self predict_fn)).
  - intros task toks exs examples tgs targets feat Hin Hout Hexs Hex Htgs Htg Hfeat
      predictions.
    pose proof (task_metrics_value_aligned _ _ _ _ _ _ _ _ _
                  Hout Hexs Hex Htgs Htg Hfeat) as Hval.
    split; [|split].
    + unfold predictions, predictions_of.
      by rewrite length_fmap, length_zip_with, length_fmap.
    + by rewrite task_metrics_snd.
    + by apply (foldl_store_lookup
                  (task_metrics_value self (collected self predict_fn))).
  - intros w Hw Hm. by eapply evaluate_with_metrics.
Qed.

End Metrics.

(** * Runs on the registry *)

Module Runs.
Import Fixture.

Lemma C4_witness :
  ∃ self,
    construct "unscored" None None = ([LogWarning NoValidEvalTask], Ok self)
    ∧ eval_tasks self = []
    ∧ ∀ step predict_fn,
        evaluate self true step predict_fn = ([], Ok (∅, Some ∅)).
Proof.
  apply (C4_no_active_task_empty_results get_subtasks get_valid_eval_tasks
           get_targets_and_examples "unscored" feature_converter "validation"
           false None None [unscored]); reflexivity.
Defined.

Lemma C2_witness :
  construct "copy" (Some exact) None
  = ([CallGetTargetsAndExamples], Err (UnboundLocalError "lengths")).
Proof.
  eapply (C2_equal_lengths_unbound get_subtasks get_valid_eval_tasks
            get_targets_and_examples "copy" feature_converter "validation"
            false None [copy "copy" dataset] (copy "copy" dataset) []
            _ _ _ exact _ 10 5);
    try reflexivity.
  by eexists.
Defined.

Lemma C8_witness :
  (∃ self,
     construct "copy" (Some longer) None
     = ([CallGetTargetsAndExamples; LogWarning LongerThanNecessary;
         CallFeatureConverter "copy"], Ok self)
     ∧ _cached_ds self
       = Some {[ "copy" := enumerate (feature_converter dataset longer) ]})
  ∧ (∃ self,
       construct "copy" (Some shorter) None
       = ([CallGetTargetsAndExamples; LogWarning InsufficientLengths;
           CallFeatureConverter "copy"], Ok self)
       ∧ _cached_ds self
         = Some {[ "copy" := enumerate (feature_converter dataset shorter) ]}).
Proof.
  split.
  - eexists. split.
    + eapply (proj1 (C8_longer_lengths_warning get_subtasks get_valid_eval_tasks
                get_targets_and_examples "copy" feature_converter "validation"
                false None [copy "copy" dataset] (copy "copy" dataset) []
                _ _ _ longer _ 20 10 5 5
                eq_refl eq_refl eq_refl _ eq_refl eq_refl eq_refl eq_refl));
        [lia | lia | lia].
    + reflexivity.
  - eexists. split.
    + eapply (proj2 (C8_longer_lengths_warning get_subtasks get_valid_eval_tasks
                get_targets_and_examples "copy" feature_converter "validation"
                false None [copy "copy" dataset] (copy "copy" dataset) []
                _ _ _ shorter _ 8 10 5 5
                eq_refl eq_refl eq_refl _ eq_refl eq_refl eq_refl eq_refl)).
      lia.
    + reflexivity.
  Unshelve.
  all: repeat constructor; by eexists.
Defined.

(** C8, as stated, fails: with inputs longer and targets shorter than the
    observed maxima, only the truncation warning is emitted. *)
Lemma C8_counterexample :
  (construct "copy" (Some mixed) None).1
  = [CallGetTargetsAndExamples; LogWarning InsufficientLengths;
     CallFeatureConverter "copy"]
  ∧ ¬ (LogWarning LongerThanNecessary ∈ ((construct "copy" (Some mixed) None).1))
  ∧ mixed !! "inputs" = Some 20
  ∧ ((get_targets_and_examples [copy "copy" dataset]
        (λ task, get_dataset task "validation" false false)).2) !! "inputs"
    = Some 10.
Proof.
  split; [reflexivity|]. split; [|split; reflexivity].
  intros H. vm_compute in H. repeat (apply elem_of_cons in H as [H|H]; [discriminate|]).
  by apply elem_of_nil in H.
Qed.

Lemma plain_tasks : eval_tasks plain = [copy "copy" dataset].
Proof. reflexivity. Qed.

Lemma logged_tasks : eval_tasks logged = [copy "copy" dataset].
Proof. reflexivity. Qed.

Lemma twice_tasks :
  eval_tasks twice = [copy "copy" dataset; copy "copy2" (drop 1 dataset)].
Proof. reflexivity. Qed.

Lemma plain_dataset : dataset_of plain (copy "copy" dataset) = Ok copy_ds.
Proof. reflexivity. Qed.

Lemma logged_dataset : dataset_of logged (copy "copy" dataset) = Ok copy_ds.
Proof. reflexivity. Qed.

Lemma C1_witness :
  (task_output_tokens (MetricValue := Q) plain predict_reversed
     (copy "copy" dataset)).2
  = Ok [Seq [1]; Seq [24]; Seq [3]]
  ∧ evaluate plain true (Some 1) predict_reversed
    = evaluate plain true (Some 1) predict_in_order.
Proof.
  assert (predict_reversed copy_ds ≡ₚ in_index_order [Seq [1]; Seq [24]; Seq [3]])
    as Hperm.
  { unfold predict_reversed. by rewrite reverse_Permutation. }
  destruct (C1_order_restoration_permutation_invariant
              plain true (Some 1) predict_reversed predict_in_order) as [Htok Heq].
  split.
  - by apply (Htok (copy "copy" dataset) copy_ds [Seq [1]; Seq [24]; Seq [3]]
                plain_dataset Hperm eq_refl).
  - apply Heq. intros task ds Hin Hds. rewrite plain_tasks in Hin.
    apply list_elem_of_singleton in Hin as ->.
    rewrite plain_dataset in Hds. injection Hds as <-.
    by exists [Seq [1]; Seq [24]; Seq [3]].
Defined.

Lemma C3_witness :
  ∃ t, evaluate plain true None predict_triple = (t, Err shape_error).
Proof.
  apply (C3_first_element_shape_check plain true None predict_triple
           [] (copy "copy" dataset) [] copy_ds [Int 0; Seq [1]; Seq [9]]).
  - exact plain_tasks.
  - constructor.
  - exact plain_dataset.
  - reflexivity.
  - cbn. lia.
Defined.

(** C3, as stated, fails: an element with three components that is not the
    first one raises nothing; its extra component is dropped. *)
Lemma C3_counterexample :
  evaluate plain false None predict_late_triple
  = ([CallPredictFn "copy"],
     Ok ({[ "copy" := [Seq [1]; Seq [2]; Seq [3]] ]}, None)).
Proof. reflexivity. Qed.

Lemma C7_witness :
  evaluate plain false (Some 7) predict_reversed
  = ([CallPredictFn "copy"], Ok (collected plain predict_reversed, None))
  ∧ collected plain predict_reversed !! "copy" = Some [Seq [1]; Seq [24]; Seq [3]].
Proof.
  destruct (C7_outputs_without_metrics get_subtasks get_valid_eval_tasks
              get_targets_and_examples "copy" feature_converter "validation"
              false None None (construct "copy" None None).1 plain
              (Some 7) predict_reversed) as [Heq _].
  - reflexivity.
  - intros task ds Hin Hds. rewrite plain_tasks in Hin.
    apply list_elem_of_singleton in Hin as ->.
    rewrite plain_dataset in Hds. injection Hds as <-. by eexists.
  - split; [exact Heq|reflexivity].
Defined.

(** C7, as stated, fails: a predictor may return an empty sequence, and
    then [evaluate(compute_metrics=False)] returns nothing. *)
Lemma C7_counterexample :
  eval_tasks plain ≠ []
  ∧ evaluate plain false None predict_nothing
    = ([CallPredictFn "copy"], Err IndexError).
Proof. split; [done|reflexivity]. Qed.

Lemma C9_witness :
  (∀ r, (evaluate twice false None predict_three_only).2 ≠ Ok r)
  ∧ ∃ t, evaluate twice false None predict_three_only = (t, Err IndexError).
Proof.
  destruct (C9_empty_prediction_index_error twice false None predict_three_only
              [copy "copy" dataset] (copy "copy2" (drop 1 dataset)) []
              [(0, [4; 15; 7]); (1, [3; 15; 23])]) as [Hnever Hraise];
    [reflexivity..|].
  split; [exact Hnever|]. apply Hraise. repeat constructor. by eexists.
Defined.

Lemma C6_witness :
  filter is_build (construct "copy" None None).1
  = [CallGetTargetsAndExamples; CallFeatureConverter "copy"]
  ∧ filter is_build (evaluate plain true (Some 1) predict_reversed).1 = []
  ∧ (evaluate logged true (Some 1) predict_reversed).2
    = (evaluate logged true (Some 2) predict_reversed).2.
Proof.
  destruct (C6_cached_once_and_repeatable get_subtasks get_valid_eval_tasks
              get_targets_and_examples "copy" feature_converter "validation"
              false None None (construct "copy" None None).1 plain)
    as (Hbuild & _ & Hcalls); [reflexivity|].
  destruct (C6_cached_once_and_repeatable get_subtasks get_valid_eval_tasks
              get_targets_and_examples "copy" feature_converter "validation"
              false None (Some "dir") (construct "copy" None (Some "dir")).1 logged)
    as (_ & _ & Hlogged); [reflexivity|].
  split; [exact Hbuild|]. split.
  - exact (proj1 (Hcalls true (Some 1) None predict_reversed)).
  - exact (proj2 (Hlogged true (Some 1) (Some 2) predict_reversed)).
Defined.

Lemma C10_witness :
  evaluate logged false None predict_two
  = ([CallPredictFn "copy"], Ok ({[ "copy" := [Seq [1]; Seq [2]] ]}, None))
  ∧ length (predictions_of (copy "copy" dataset) letters [[1]; [2]] dataset) = 2%nat
  ∧ (evaluate logged true (Some 0) predict_two).2
    = Ok ({[ "copy" := [Seq [1]; Seq [2]] ]},
          Some {[ "copy" := [accuracy ["a"; "b"; "c"] ["a"; "b"]] ]}).
Proof.
  destruct (C10_pair_count_not_validated logged (Some 0) predict_two)
    as (_ & _ & Halign & Hmetrics).
  { rewrite logged_tasks. repeat constructor. by intros ?%elem_of_nil. }
  { intros task Hin. rewrite logged_tasks in Hin.
    apply list_elem_of_singleton in Hin as ->.
    exists copy_ds. split; [exact logged_dataset|]. split; [done|].
    repeat constructor; by do 2 eexists. }
  destruct (C10_pair_count_not_validated logged None predict_two)
    as (Hfalse & _).
  { rewrite logged_tasks. repeat constructor. by intros ?%elem_of_nil. }
  { intros task Hin. rewrite logged_tasks in Hin.
    apply list_elem_of_singleton in Hin as ->.
    exists copy_ds. split; [exact logged_dataset|]. split; [done|].
    repeat constructor; by do 2 eexists. }
  split; [exact Hfalse|]. split.
  - refine (proj1 (Halign (copy "copy" dataset) [[1]; [2]]
                     {[ "copy" := dataset ]} dataset
                     {[ "copy" := ["a"; "b"; "c"] ]} ["a"; "b"; "c"]
                     {| vocabulary := letters |} _ _ _ _ _ _ _));
      try reflexivity.
    rewrite logged_tasks. by left.
  - apply (Hmetrics (Some "dir")); [reflexivity|].
    rewrite logged_tasks. repeat constructor. by eexists.
Defined.

(** C5 (evaluation of the code where the claim fails).  The task has targets
    [a], [b], [c] and the predictor answers [a], [x], [c].  Constructed
    without a summary directory, the evaluator has no [_summary_writer]
    attribute: [evaluate(compute_metrics=True)] applies the metric function
    of the first task and then raises AttributeError in the logging step, so
    no metric is returned and the metric functions of the tasks after the
    first are never applied.  Constructed with a summary directory, the same
    call returns the exact-match accuracy 2/3. *)
Theorem C5_metrics_lost_without_summary_writer :
  cached_targets plain = Ok {[ "copy" := ["a"; "b"; "c"] ]}
  ∧ evaluate plain true (Some 0) predict_reversed
    = ([CallPredictFn "copy";
        CallDecode "copy"; CallDecode "copy"; CallDecode "copy";
        CallPostprocess "copy"; CallPostprocess "copy"; CallPostprocess "copy";
        CallMetricFn "copy"],
       Err (AttributeError "_summary_writer"))
  ∧ evaluate twice true (Some 0) predict_reversed
    = ([CallPredictFn "copy"; CallPredictFn "copy2";
        CallDecode "copy"; CallDecode "copy"; CallDecode "copy";
        CallPostprocess "copy"; CallPostprocess "copy"; CallPostprocess "copy";
        CallMetricFn "copy"],
       Err (AttributeError "_summary_writer"))
  ∧ evaluate logged true (Some 0) predict_reversed
    = ([CallPredictFn "copy";
        CallDecode "copy"; CallDecode "copy"; CallDecode "copy";
        CallPostprocess "copy"; CallPostprocess "copy"; CallPostprocess "copy";
        CallMetricFn "copy";
        LogInfoMetric "eval/copy/accuracy" 0 (2 # 3);
        AddSummary "eval/copy/accuracy" (2 # 3) 0; FlushSummary],
       Ok ({[ "copy" := [Seq [1]; Seq [24]; Seq [3]] ]},
           Some {[ "copy" := [[("accuracy", 2 # 3)]] ]})).
Proof. repeat split; vm_compute; reflexivity. Qed.

(** The ordering step on small inputs: equal indices keep their order of
    arrival, an index that is not an integer cannot be compared with one
    that is, and an element without a second component cannot be read. *)
Example ordered_stable :
  ordered_output_tokens [[Int 1; Seq [1]]; [Int 0; Seq [2]]; [Int 1; Seq [3]]]
  = Ok [Seq [2]; Seq [1]; Seq [3]].
Proof. reflexivity. Qed.

Example ordered_mixed_keys :
  ordered_output_tokens [[Int 1; Seq [1]]; [Seq [0]; Seq [2]]] = Err TypeError.
Proof. reflexivity. Qed.

Example ordered_short_element :
  ordered_output_tokens [[Int 1; Seq [1]]; [Int 0]] = Err IndexError.
Proof. reflexivity. Qed.

End Runs.

(** * Further properties of construction *)

Section MoreConstruction.
Context {Example ModelEx Value MetricValue : Type}.
Local Abbreviation Task := (@Task Example Value MetricValue).
Local Abbreviation Evaluator := (@Evaluator Example ModelEx Value MetricValue).
Implicit Types (self : Evaluator) (task : Task) (tasks : list Task).
Implicit Types (given max_lengths : gmap string Z).

Lemma reconcile_missing_inputs given max_lengths :
  given !! "inputs" = None →
  reconcile_lengths (MetricValue := MetricValue) (Some given) max_lengths
  = ([], Err (KeyError "inputs")).
Proof. intros H. unfold reconcile_lengths, py_getitem. by rewrite H. Qed.

Lemma reconcile_missing_targets given max_lengths gi mi :
  given !! "inputs" = Some gi → max_lengths !! "inputs" = Some mi →
  mi ≤ gi → given !! "targets" = None →
  reconcile_lengths (MetricValue := MetricValue) (Some given) max_lengths
  = ([], Err (KeyError "targets")).
Proof.
  intros Hgi Hmi Hle Hgt. unfold reconcile_lengths, py_getitem.
  rewrite Hgi, Hmi, Hgt, !M_lift_bind.
  destruct (Z.ltb_spec gi mi); [lia|]. done.
Qed.

Lemma reconcile_inputs_short given max_lengths gi mi :
  given !! "inputs" = Some gi → max_lengths !! "inputs" = Some mi →
  gi < mi →
  reconcile_lengths (MetricValue := MetricValue) (Some given) max_lengths
  = ([LogWarning InsufficientLengths], Ok (Some given)).
Proof.
  intros Hgi Hmi Hlt. unfold reconcile_lengths, py_getitem.
  rewrite Hgi, Hmi, !M_lift_bind.
  destruct (Z.ltb_spec gi mi); [|lia]. by rewrite M_ret_bind.
Qed.

Lemma enumerate_lookup {A} (l : list A) (i : nat) (p : Z * A) :
  enumerate l !! i = Some p ↔ p.1 = Z.of_nat i ∧ l !! i = Some p.2.
Proof.
  unfold enumerate. rewrite list_lookup_imap. destruct (l !! i) as [x|]; cbn.
  - split.
    + by intros [= <-].
    + destruct p as [j y]. cbn. by intros [-> [= ->]].
  - split; [done|]. by intros [_ ?].
Qed.

Lemma foldl_converted_enumerated
    (feature_converter : list Example → gmap string Z → list ModelEx)
    (task_datasets : gmap string (list Example)) lengths
    (acc : gmap string (list (Z * ModelEx))) tasks k ds :
  (∀ k d, acc !! k = Some d → ∃ l, d = enumerate l) →
  foldl (converted feature_converter task_datasets lengths) acc tasks !! k = Some ds →
  ∃ l, ds = enumerate l.
Proof.
  revert acc. induction tasks as [|task tasks IH]; intros acc Hacc H.
  - by eapply Hacc.
  - cbn in H. eapply IH; [|exact H]. intros k' d. unfold converted.
    destruct (decide (name task = k')) as [<-|Hne].
    + rewrite lookup_insert_eq. intros [= <-]. by eexists.
    + rewrite lookup_insert_ne by done. apply Hacc.
Qed.

Lemma conversion_loop_cover
    (feature_converter : list Example → gmap string Z → list ModelEx)
    (task_datasets : gmap string (list Example)) lengths cached tasks ds :
  (for_fold (MetricValue := MetricValue) tasks cached
     (conversion_body feature_converter task_datasets lengths)).2 = Ok ds →
  Forall (λ task, is_Some (task_datasets !! name task)) tasks
  ∧ (tasks ≠ [] → is_Some lengths).
Proof.
  intros H.
  assert (∀ task, task ∈ tasks →
            is_Some (task_datasets !! name task) ∧ is_Some lengths) as Hall.
  { intros task Hin.
    destruct (for_fold_snd_inv _ _ _ _ H task Hin) as (s' & d & Hd).
    unfold conversion_body, py_getitem in Hd.
    destruct (task_datasets !! name task) as [raw|]; [|done].
    rewrite M_lift_bind in Hd. destruct lengths; [|done]. split; by eexists. }
  split.
  - apply Forall_forall. intros task Hin. by apply Hall.
  - destruct tasks as [|task tasks]; [done|]. intros _.
    apply (Hall task). by left.
Qed.

Section MoreInit.
Variable get_subtasks : string → res (list Task).
Variable get_valid_eval_tasks : list Task → string → list Task.
Variable get_targets_and_examples :
  list Task → (Task → list Example) →
  gmap string (list Example) * gmap string (list Value)
  * gmap string (list Example) * gmap string Z.

Local Abbreviation init :=
  (__init__ (ModelEx := ModelEx) get_subtasks get_valid_eval_tasks
     get_targets_and_examples).

Lemma init_rejects mixture_or_task_name feature_converter eval_split use_cached
    sequence_lengths summary_dir all_tasks task tasks
    examples targets task_datasets max_lengths tw e :
  get_subtasks mixture_or_task_name = Ok all_tasks →
  get_valid_eval_tasks all_tasks eval_split = task :: tasks →
  get_targets_and_examples (task :: tasks)
    (λ task, get_dataset task eval_split false use_cached)
  = (examples, targets, task_datasets, max_lengths) →
  reconcile_lengths sequence_lengths max_lengths = (tw, Err e) →
  init mixture_or_task_name feature_converter eval_split use_cached
    sequence_lengths summary_dir
  = (CallGetTargetsAndExamples :: tw, Err e).
Proof.
  intros Hgs Hgv Hgte Hrec.
  rewrite (init_nonempty _ _ _ _ _ _ _ _ _ _ _ _ _ _ _ _ Hgs Hgv Hgte).
  by rewrite M_emit_bind, (M_bind_Err _ _ _ _ Hrec).
Qed.

(** Everything a returning constructor with an active task has done. *)
Lemma init_inv_active mixture_or_task_name feature_converter eval_split use_cached
    sequence_lengths summary_dir t0 self :
  init mixture_or_task_name feature_converter eval_split use_cached
    sequence_lengths summary_dir = (t0, Ok self) →
  eval_tasks self ≠ [] →
  ∃ all_tasks examples targets task_datasets max_lengths
    (tw : list (event MetricValue)) lengths,
    get_subtasks mixture_or_task_name = Ok all_tasks
    ∧ get_targets_and_examples (get_valid_eval_tasks all_tasks eval_split)
        (λ task, get_dataset task eval_split false use_cached)
      = (examples, targets, task_datasets, max_lengths)
    ∧ reconcile_lengths sequence_lengths max_lengths = (tw, Ok (Some lengths))
    ∧ Forall (λ task, is_Some (task_datasets !! name task))
        (get_valid_eval_tasks all_tasks eval_split)
    ∧ self = {| _eval_tasks := get_valid_eval_tasks all_tasks eval_split;
                _cached_ds :=
                  Some (foldl (converted feature_converter task_datasets lengths) ∅
                          (get_valid_eval_tasks all_tasks eval_split));
                _cached_examples := Some examples;
                _cached_targets := Some targets;
                _summary_writer := writer_attr (MetricValue := MetricValue) summary_dir |}.
Proof.
  intros H Hne.
  destruct (get_subtasks mixture_or_task_name) as [all_tasks|e] eqn:Hgs.
  2:{ unfold __init__ in H. by rewrite Hgs in H. }
  destruct (get_valid_eval_tasks all_tasks eval_split) as [|task tasks] eqn:Hgv.
  { unfold __init__ in H. rewrite Hgs, M_lift_bind in H.
    cbv zeta in H. rewrite Hgv, M_emit_bind in H. by injection H as <- <-. }
  destruct (get_targets_and_examples (task :: tasks)
              (λ task, get_dataset task eval_split false use_cached))
    as [[[examples targets] task_datasets] max_lengths] eqn:Hgte.
  pose proof H as H'.
  rewrite (init_nonempty _ _ _ _ _ _ _ _ _ _ _ _ _ _ _ _ Hgs Hgv Hgte) in H.
  rewrite M_emit_bind, M_bind_fst_snd in H.
  destruct (reconcile_lengths sequence_lengths max_lengths) as [tw [lengths|e]]
    eqn:Hrec; [|done].
  cbn [fst snd] in H. rewrite M_bind_fst_snd in H.
  destruct (for_fold (task :: tasks) ∅ _) as [tc [ds|e]] eqn:Hloop; [|done].
  assert ((for_fold (task :: tasks) ∅
             (conversion_body feature_converter task_datasets lengths)).2 = Ok ds)
    as Hloop2 by (by rewrite Hloop).
  apply conversion_loop_cover in Hloop2 as [Hcover Hlen].
  destruct Hlen as [l ->]; [done|].
  exists all_tasks, examples, targets, task_datasets, max_lengths, tw, l.
  rewrite Hgv, Hgte. split; [done|]. split; [done|]. split; [done|].
  split; [done|].
  rewrite (init_accepts _ _ _ _ _ _ _ _ _ _ _ _ _ _ _ _ _ _
             Hgs Hgv Hgte Hcover Hrec) in H'.
  by injection H' as _ <-.
Qed.

(** Without supplied lengths (lines 108-110) construction logs the observed
    maxima at info level, emits no warning, and passes the observed maxima
    to the feature converter for every active task; the cached examples and
    targets are those [get_targets_and_examples] returned. *)
Theorem init_auto_lengths
    mixture_or_task_name feature_converter eval_split use_cached
    summary_dir all_tasks task tasks examples targets task_datasets max_lengths :
  get_subtasks mixture_or_task_name = Ok all_tasks →
  get_valid_eval_tasks all_tasks eval_split = task :: tasks →
  get_targets_and_examples (task :: tasks)
    (λ task, get_dataset task eval_split false use_cached)
  = (examples, targets, task_datasets, max_lengths) →
  Forall (λ task, is_Some (task_datasets !! name task)) (task :: tasks) →
  init mixture_or_task_name feature_converter eval_split use_cached
    None summary_dir
  = (CallGetTargetsAndExamples :: [LogInfoLengths max_lengths]
       ++ ((λ task, CallFeatureConverter (name task)) <$> task :: tasks)
       ++ (open_writer summary_dir).1,
     Ok {| _eval_tasks := task :: tasks;
           _cached_ds := Some (foldl (converted feature_converter task_datasets max_lengths)
                                 ∅ (task :: tasks));
           _cached_examples := Some examples;
           _cached_targets := Some targets;
           _summary_writer := writer_attr (MetricValue := MetricValue) summary_dir |}).
Proof.
  intros Hgs Hgv Hgte Hcover.
  by apply (init_accepts _ _ _ _ _ _ _ _ _ _ _ _ _ _ _ _ _ _ Hgs Hgv Hgte Hcover).
Qed.

(** Supplied lengths are read with [sequence_lengths["inputs"]] first
    (line 111): a mapping without "inputs" makes construction raise
    KeyError("inputs"); one whose "inputs" is not below the observed
    maximum and that lacks "targets" raises KeyError("targets").  In both
    cases nothing has been converted or warned about. *)
Theorem init_missing_length_key
    mixture_or_task_name feature_converter eval_split use_cached
    summary_dir all_tasks task tasks examples targets task_datasets
    given max_lengths :
  get_subtasks mixture_or_task_name = Ok all_tasks →
  get_valid_eval_tasks all_tasks eval_split = task :: tasks →
  get_targets_and_examples (task :: tasks)
    (λ task, get_dataset task eval_split false use_cached)
  = (examples, targets, task_datasets, max_lengths) →
  (given !! "inputs" = None →
   init mixture_or_task_name feature_converter eval_split use_cached
     (Some given) summary_dir
   = ([CallGetTargetsAndExamples], Err (KeyError "inputs")))
  ∧ (∀ gi mi, given !! "inputs" = Some gi → max_lengths !! "inputs" = Some mi →
       mi ≤ gi → given !! "targets" = None →
       init mixture_or_task_name feature_converter eval_split use_cached
         (Some given) summary_dir
       = ([CallGetTargetsAndExamples], Err (KeyError "targets"))).
Proof.
  intros Hgs Hgv Hgte. split.
  - intros Hgi.
    eapply init_rejects; [exact Hgs|exact Hgv|exact Hgte|].
    by apply reconcile_missing_inputs.
  - intros gi mi Hgi Hmi Hle Hgt.
    eapply init_rejects; [exact Hgs|exact Hgv|exact Hgte|].
    by eapply reconcile_missing_targets.
Qed.

(** The test of line 111 is an [or] that stops at its first true operand:
    when the supplied "inputs" length is below the observed maximum, the
    "targets" entries are never read, so a mapping holding "inputs" alone is
    accepted, with the truncation warning, and handed to the feature
    converter as it is. *)
Theorem init_inputs_short_circuit
    mixture_or_task_name feature_converter eval_split use_cached
    summary_dir all_tasks task tasks examples targets task_datasets
    given max_lengths gi mi :
  get_subtasks mixture_or_task_name = Ok all_tasks →
  get_valid_eval_tasks all_tasks eval_split = task :: tasks →
  get_targets_and_examples (task :: tasks)
    (λ task, get_dataset task eval_split false use_cached)
  = (examples, targets, task_datasets, max_lengths) →
  Forall (λ task, is_Some (task_datasets !! name task)) (task :: tasks) →
  given !! "inputs" = Some gi → max_lengths !! "inputs" = Some mi →
  gi < mi →
  init mixture_or_task_name feature_converter eval_split use_cached
    (Some given) summary_dir
  = (CallGetTargetsAndExamples :: [LogWarning InsufficientLengths]
       ++ ((λ task, CallFeatureConverter (name task)) <$> task :: tasks)
       ++ (open_writer summary_dir).1,
     Ok {| _eval_tasks := task :: tasks;
           _cached_ds := Some (foldl (converted feature_converter task_datasets given)
                                 ∅ (task :: tasks));
           _cached_examples := Some examples;
           _cached_targets := Some targets;
           _summary_writer := writer_attr (MetricValue := MetricValue) summary_dir |}).
Proof.
  intros Hgs Hgv Hgte Hcover Hgi Hmi Hlt.
  apply (init_accepts _ _ _ _ _ _ _ _ _ _ _ _ _ _ _ _ _ _ Hgs Hgv Hgte Hcover).
  by eapply reconcile_inputs_short.
Qed.

(** On an evaluator constructed with an active task, reading
    [summary_writer] gives the writer opened on [summary_dir] when that is a
    non-empty string, and raises AttributeError otherwise (lines 146-148 and
    284-286: the attribute is assigned under [if summary_dir:] only). *)
Theorem constructed_summary_writer
    mixture_or_task_name feature_converter eval_split use_cached
    sequence_lengths summary_dir t0 self :
  init mixture_or_task_name feature_converter eval_split use_cached
    sequence_lengths summary_dir = (t0, Ok self) →
  eval_tasks self ≠ [] →
  summary_writer self
  = match summary_dir with
    | Some dir =>
        if bool_decide (dir = "") then Err (AttributeError "_summary_writer")
        else Ok (Some dir)
    | None => Err (AttributeError "_summary_writer")
    end.
Proof.
  intros H Hne.
  destruct (init_inv_active _ _ _ _ _ _ _ _ H Hne)
    as (all_tasks & examples & targets & tds & maxl & tw & lengths
        & _ & _ & _ & _ & ->).
  unfold summary_writer, writer_attr, open_writer. cbn.
  destruct summary_dir as [dir|]; [|done]. by case_bool_decide.
Qed.

(** With no active task the constructor returns at line 93, before any
    cache or the summary writer is set up, even when a summary directory is
    given: the four cache properties raise AttributeError, yet
    [evaluate(compute_metrics=False)] returns an empty mapping and [None]
    without calling the predictor. *)
Theorem inactive_evaluator
    mixture_or_task_name feature_converter eval_split use_cached
    sequence_lengths summary_dir all_tasks :
  get_subtasks mixture_or_task_name = Ok all_tasks →
  get_valid_eval_tasks all_tasks eval_split = [] →
  ∃ self,
    (init mixture_or_task_name feature_converter eval_split use_cached
       sequence_lengths summary_dir).2 = Ok self
    ∧ cached_ds self = Err (AttributeError "_cached_ds")
    ∧ cached_examples self = Err (AttributeError "_cached_examples")
    ∧ cached_targets self = Err (AttributeError "_cached_targets")
    ∧ summary_writer self = Err (AttributeError "_summary_writer")
    ∧ ∀ step predict_fn,
        evaluate self false step predict_fn = ([], Ok (∅, None)).
Proof.
  intros Hgs Hgv. exists unset. split; [|done].
  unfold __init__. rewrite Hgs, M_lift_bind. cbv zeta. by rewrite Hgv.
Qed.

(** Every cached dataset of a constructed evaluator is an enumeration
    (line 137): its element at position [i] is the pair of the index [i]
    and the [i]-th converted example. *)
Theorem cached_ds_enumerated
    mixture_or_task_name feature_converter eval_split use_cached
    sequence_lengths summary_dir t0 self :
  init mixture_or_task_name feature_converter eval_split use_cached
    sequence_lengths summary_dir = (t0, Ok self) →
  ∀ task, task ∈ eval_tasks self →
    ∃ (converted_examples : list ModelEx),
      dataset_of self task = Ok (enumerate converted_examples)
      ∧ ∀ (i : nat) (p : Z * ModelEx),
          enumerate converted_examples !! i = Some p
          ↔ p.1 = Z.of_nat i ∧ converted_examples !! i = Some p.2.
Proof.
  intros H task Hin.
  assert (eval_tasks self ≠ []) as Hne by (by intros Heq; rewrite Heq in Hin;
                                             apply elem_of_nil in Hin).
  destruct (constructed_datasets _ _ _ _ _ _ _ _ _ _ _ H task Hin) as [ds Hds].
  destruct (init_inv_active _ _ _ _ _ _ _ _ H Hne)
    as (all_tasks & examples & targets & tds & maxl & tw & lengths
        & _ & _ & _ & _ & Hself).
  assert (∃ l, ds = enumerate l) as [l ->].
  { subst self. unfold dataset_of, cached_ds, py_getitem in Hds. cbn in Hds.
    destruct (foldl _ _ _ !! name task) as [d|] eqn:Hd; [|done].
    injection Hds as <-.
    eapply foldl_converted_enumerated; [|exact Hd]. by intros k d'. }
  exists l. split; [done|]. intros i p. apply enumerate_lookup.
Qed.

End MoreInit.

End MoreConstruction.

(** * Further properties of the ordering step *)

Section MoreSorting.
Implicit Types (rows : list tuple) (l s : list (obj * tuple)).

Lemma insort_filter i x l s (k : obj) :
  Forall int_keyed l →
  insort (Int i) x l = Ok s →
  filter (λ p, p.1 = k) s = filter (λ p, p.1 = k) ((Int i, x) :: l).
Proof.
  revert s. induction l as [|[k' y] l IH]; intros s Hk H.
  - by injection H as <-.
  - apply Forall_cons in Hk as [[j Hj] Hk]. cbn in Hj. subst k'.
    cbn in H. destruct (Z.ltb_spec j i) as [Hlt|Hge]; cbn in H.
    + destruct (insort (Int i) x l) as [s'|e] eqn:Hs'; [|done].
      injection H as <-. specialize (IH s' Hk eq_refl).
      rewrite (filter_cons _ (Int j, y) s'), IH.
      rewrite !filter_cons. cbn.
      repeat case_decide; simplify_eq; try done. lia.
    + by injection H as <-.
Qed.

Lemma insort_int_keyed i x l s :
  Forall int_keyed l → insort (Int i) x l = Ok s → Forall int_keyed s.
Proof.
  revert s. induction l as [|[k' y] l IH]; intros s Hk H.
  - injection H as <-. constructor; [by exists i|done].
  - pose proof Hk as [[j Hj] Hk']%Forall_cons. cbn in Hj. subst k'.
    cbn in H. destruct (j <? i); cbn in H.
    + destruct (insort (Int i) x l) as [s'|e] eqn:Hs'; [|done].
      injection H as <-. constructor; [by exists j|]. by apply IH.
    + injection H as <-. constructor; [by exists i|done].
Qed.

Lemma sort_decorated_filter l (k : obj) :
  Forall int_keyed l →
  ∃ s, sort_decorated l = Ok s ∧ Forall int_keyed s
       ∧ filter (λ p, p.1 = k) s = filter (λ p, p.1 = k) l.
Proof.
  induction l as [|[k' x] l IH]; intros Hk.
  - by exists [].
  - apply Forall_cons in Hk as [[i Hi] Hk]. cbn in Hi. subst k'.
    destruct (IH Hk) as (s & Hs & Hks & Hf). cbn. rewrite Hs, res_ret_bind.
    destruct (sort_decorated_sorted l Hk) as (s0 & Hs0 & _ & Hss).
    assert (s0 = s) as -> by congruence.
    destruct (insort_sorted i x s Hks Hss) as (s' & Hs' & _ & _).
    exists s'. split; [done|]. split; [by eapply insort_int_keyed|].
    rewrite (insort_filter _ _ _ _ _ Hks Hs'), !filter_cons, Hf. done.
Qed.

Lemma filter_decorate (k : obj) rows :
  filter (λ p, p.1 = k) (decorate <$> rows)
  = decorate <$> filter (λ x : tuple, key_of x = k) rows.
Proof.
  induction rows as [|x rows IH]; [done|].
  cbn [fmap list_fmap]. rewrite !filter_cons, IH. cbn.
  by destruct (decide (key_of x = k)).
Qed.

Lemma decorated_snd s rows :
  s ≡ₚ decorate <$> rows → s = decorate <$> s.*2.
Proof.
  intros Hp.
  assert (Forall (λ p, p = decorate p.2) s) as H.
  { rewrite Hp. apply Forall_fmap, Forall_forall. by intros x _. }
  clear Hp. induction H as [|p s Hp' _ IH]; [done|].
  cbn [fmap list_fmap]. by f_equal.
Qed.

Lemma mapM_py_index_Err {A} (l : list (list A)) (i : nat) :
  Exists (λ x, x !! i = None) l →
  mapM (λ x, py_index x i) l = Err IndexError.
Proof.
  induction l as [|x l IH]; intros H.
  { by apply Exists_nil in H. }
  cbn [mapM]. unfold py_index in *. destruct (x !! i) as [y|] eqn:Hx; [|done].
  apply Exists_cons in H as [H|H]; [congruence|].
  by rewrite res_ret_bind, (IH H).
Qed.

Lemma sorted_by_first_int_keys rows :
  Forall has_int_key rows →
  ∃ out : list tuple,
    sorted_by_first rows = Ok out
    ∧ out ≡ₚ rows
    ∧ StronglySorted key_le (decorate <$> out)
    ∧ ∀ k : obj, filter (λ x : tuple, key_of x = k) out
                 = filter (λ x : tuple, key_of x = k) rows.
Proof.
  intros Hk. unfold sorted_by_first.
  rewrite keys_of_rows.
  2:{ eapply Forall_impl; [exact Hk|]. intros x [j Hj]. by eexists. }
  rewrite res_ret_bind, zip_keys.
  assert (Forall int_keyed (decorate <$> rows)) as Hdk.
  { apply Forall_fmap. eapply Forall_impl; [exact Hk|].
    intros x [j Hj]. exists j. unfold decorate, key_of. cbn. by rewrite Hj. }
  destruct (sort_decorated_sorted _ Hdk) as (s & Hs & Hp & Hss).
  rewrite Hs, res_ret_bind. exists (s.*2).
  pose proof (decorated_snd _ _ Hp) as Hdec.
  split; [done|]. split; [|split].
  - rewrite Hp, <-list_fmap_compose. by rewrite list_fmap_id.
  - by rewrite <-Hdec.
  - intros k. destruct (sort_decorated_filter _ k Hdk) as (s' & Hs' & _ & Hf).
    assert (s' = s) as -> by congruence.
    rewrite filter_decorate, Hdec, filter_decorate in Hf.
    apply (f_equal (fmap snd)) in Hf.
    rewrite <-!list_fmap_compose in Hf. by rewrite !list_fmap_id in Hf.
Qed.

(** The ordering step (lines 212-214) is a stable sort on the index: for a
    non-empty result whose elements are pairs with an integer index (any
    integers, repeated or not), the output tokens are the second components
    of a rearrangement of the pairs that is non-decreasing in the index and
    keeps pairs of equal index in their order of arrival; no pair is lost
    or duplicated. *)
Theorem ordering_is_stable_sort rows :
  rows ≠ [] →
  Forall (λ x : tuple, ∃ i t, x = [Int i; t]) rows →
  ∃ out : list tuple,
    ordered_output_tokens rows = Ok (tokens_of <$> out)
    ∧ out ≡ₚ rows
    ∧ StronglySorted key_le (decorate <$> out)
    ∧ ∀ i, filter (λ x : tuple, key_of x = Int i) out
           = filter (λ x : tuple, key_of x = Int i) rows.
Proof.
  intros Hne Hpairs.
  destruct (sorted_by_first_int_keys rows) as (out & Hs & Hp & Hss & Hf).
  { eapply Forall_impl; [exact Hpairs|]. intros x (i & t & ->). by exists i. }
  exists out. split; [|split; [done|split; [done|by intros i]]].
  unfold ordered_output_tokens. destruct rows as [|x rows]; [done|].
  pose proof Hpairs as [(i & t & ->) _]%Forall_cons.
  cbn -[sorted_by_first]. rewrite Hs, res_ret_bind.
  apply mapM_res_Ok. rewrite Hp.
  eapply Forall_impl; [exact Hpairs|]. by intros y (j & u & ->).
Qed.

(** Only the first element is shape-checked, so a shorter element further
    on is met by the indexing of lines 213-214: when the first element has
    two components and some element has none, or every element has an
    integer index and some element has no second component, the ordering
    step raises IndexError (not the ValueError of the shape check). *)
Theorem short_element_index_error (first : tuple) (rest : list tuple) :
  length first = 2%nat →
  Exists (λ x : tuple, x = []) rest
  ∨ (Forall has_int_key (first :: rest)
     ∧ Exists (λ x : tuple, length x = 1%nat) rest) →
  ordered_output_tokens (first :: rest) = Err IndexError.
Proof.
  intros Hlen Hshort. unfold ordered_output_tokens.
  cbn -[sorted_by_first]. rewrite bool_decide_eq_false_2 by (by intros []).
  destruct Hshort as [Hempty|[Hk Hone]].
  - unfold sorted_by_first. rewrite mapM_py_index_Err; [done|].
    apply Exists_cons_tl. eapply Exists_impl; [exact Hempty|]. by intros x ->.
  - destruct (sorted_by_first_int_keys _ Hk) as (out & -> & Hp & _).
    rewrite res_ret_bind. apply mapM_py_index_Err.
    apply Exists_exists in Hone as (x & Hx & Hx1).
    apply Exists_exists. exists x. split.
    + rewrite Hp. by right.
    + apply lookup_ge_None. lia.
Qed.

End MoreSorting.

(** * Further properties of evaluation and logging *)

Section MoreEvaluate.
Context {Example ModelEx Value MetricValue : Type}.
Local Abbreviation Task := (@Task Example Value MetricValue).
Local Abbreviation Evaluator := (@Evaluator Example ModelEx Value MetricValue).
Implicit Types (self : Evaluator) (task : Task) (tasks : list Task).
Implicit Types (predict_fn : list (Z * ModelEx) → list tuple).

Lemma for_each_Ok {A} (l : list A) (body : A → M MetricValue ())
    (tr : A → list (event MetricValue)) :
  (∀ x, body x = (tr x, Ok tt)) → for_each l body = (l ≫= tr, Ok tt).
Proof.
  intros Hb. unfold for_each. induction l as [|x l IH]; [done|].
  cbn [for_fold]. rewrite (M_bind_Ok _ _ _ _ (Hb x)), IH. by rewrite bind_cons.
Qed.

(** [_log_eval_results] (lines 245-266) on an evaluator whose
    [_summary_writer] is set: a missing step is replaced by -1 after one
    warning; then every metric entry of every dictionary, in order, gives one
    log line tagged [eval/<task>/<metric>] and, when the writer is not
    [None], one summary record with the same tag, value and step; the writer
    is flushed once, after all entries.  The call returns. *)
Theorem log_eval_results_trace self (metrics : list metrics_dict)
    (step : option Z) (task_name : string) (w : option string) :
  summary_writer self = Ok w →
  _log_eval_results self metrics step task_name
  = ((if step is None then [LogWarning StepNotProvided] else [])
       ++ log_events w task_name (default (-1) step) metrics,
     Ok tt).
Proof.
  intros Hw. unfold _log_eval_results.
  assert (∀ s : Z,
    (for_each metrics (λ task_metric,
       for_each task_metric (λ '(metric_name, metric_value),
         w ← lift (summary_writer self);
         let tag := "eval/" +:+ task_name +:+ "/" +:+ metric_name in
         emit (LogInfoMetric tag s metric_value);;
         w ← lift (summary_writer self);
         if w is Some _ then emit (AddSummary tag metric_value s)
         else mret tt));;
     w ← lift (summary_writer self);
     if w is Some _ then emit FlushSummary else mret tt)
    = (log_events w task_name s metrics, Ok tt)) as Hbody.
  { intros s.
    erewrite (M_bind_Ok _ _ _ tt).
    2:{ apply (for_each_Ok _ _ (λ d, d ≫= entry_events w task_name s)).
        intros d. apply for_each_Ok. intros [metric_name metric_value].
        rewrite Hw, M_lift_bind, M_emit_bind, M_lift_bind.
        unfold entry_events. by destruct w. }
    rewrite Hw, M_lift_bind. unfold log_events. by destruct w. }
  destruct step as [s|].
  - rewrite M_ret_bind. exact (Hbody s).
  - rewrite (M_bind_Ok _ _ [LogWarning StepNotProvided] (-1)) by reflexivity.
    pose proof (Hbody (-1)) as H1. cbn [default].
    f_equal; [f_equal; exact (f_equal fst H1)|exact (f_equal snd H1)].
Qed.

Lemma metrics_body_snd_cases self step (all_output_tokens : gmap string (list obj))
    (acc : gmap string (list metrics_dict)) task :
  (metrics_body self step all_output_tokens acc task).2
  = match task_metrics_value self all_output_tokens task with
    | Ok metrics =>
        match summary_writer self with
        | Ok _ => Ok (<[name task := metrics]> acc)
        | Err e => Err e
        end
    | Err e => Err e
    end.
Proof.
  unfold metrics_body. rewrite M_bind_snd, task_metrics_snd.
  destruct (task_metrics_value self all_output_tokens task) as [metrics|e]; [|done].
  rewrite M_bind_snd, log_eval_results_snd. by destruct (summary_writer self).
Qed.

Lemma metrics_loop_inv self step (all_output_tokens : gmap string (list obj))
    tasks (acc m : gmap string (list metrics_dict)) :
  (for_fold tasks acc (metrics_body self step all_output_tokens)).2 = Ok m →
  Forall (λ task, is_Ok (task_metrics_value self all_output_tokens task)) tasks
  ∧ (tasks ≠ [] → is_Ok (summary_writer self))
  ∧ m = foldl (store_metrics self all_output_tokens) acc tasks.
Proof.
  revert acc. induction tasks as [|task tasks IH]; intros acc H.
  - injection H as <-. done.
  - cbn [for_fold] in H. rewrite M_bind_snd, metrics_body_snd_cases in H.
    destruct (task_metrics_value self all_output_tokens task) as [metrics|e]
      eqn:Hm; [|done].
    destruct (summary_writer self) as [w|e] eqn:Hw; [|done].
    destruct (IH _ H) as (Hall & _ & ->). split; [|split].
    + constructor; [by eexists|done].
    + intros _. by eexists.
    + cbn [foldl].
      replace (store_metrics self all_output_tokens acc task)
        with (<[name task := metrics]> acc); [done|].
      unfold store_metrics. by rewrite Hm.
Qed.

Lemma foldl_store_dom {B} (f : Task → res B) tasks (acc : gmap string B) :
  Forall (λ task, is_Ok (f task)) tasks →
  dom (foldl (λ acc t, match f t with Ok b => <[name t := b]> acc | Err _ => acc end)
         acc tasks)
  = dom acc ∪ list_to_set (name <$> tasks).
Proof.
  intros H. revert acc. induction H as [|task tasks [b Hb] _ IH]; intros acc.
  - cbn. by rewrite (right_id_L ∅ (∪)).
  - cbn [foldl fmap list_fmap]. rewrite IH, Hb, dom_insert_L, list_to_set_cons.
    by rewrite (comm_L (∪) {[name task]} (dom acc)), (assoc_L (∪)).
Qed.

Lemma filter_predict_calls tasks :
  filter is_predict
    ((λ task, CallPredictFn (MetricValue := MetricValue) (name task)) <$> tasks)
  = (λ task, CallPredictFn (name task)) <$> tasks.
Proof.
  induction tasks as [|task tasks IH]; [done|].
  cbn [fmap list_fmap]. rewrite filter_cons_True by done. f_equal. apply IH.
Qed.

(** Compute-metrics needs the summary-writer attribute: on an evaluator
    with at least one active task whose [_summary_writer] was never assigned,
    [evaluate(compute_metrics=True)] never returns; when the predictions are
    in order for every task and the first task's metrics can be computed,
    the exception is the AttributeError of the attribute read in
    [_log_eval_results] (lines 255 and 265). *)
Theorem evaluate_metrics_needs_writer self step predict_fn e :
  eval_tasks self ≠ [] →
  summary_writer self = Err e →
  (∀ r, (evaluate self true step predict_fn).2 ≠ Ok r)
  ∧ (∀ task rest,
       eval_tasks self = task :: rest →
       Forall (λ task, is_Ok (restored_tokens self predict_fn task))
         (eval_tasks self) →
       is_Ok (task_metrics_value self (collected self predict_fn) task) →
       (evaluate self true step predict_fn).2 = Err e).
Proof.
  intros Hne Hw. split.
  - intros r Hr. rewrite evaluate_unfold, M_bind_snd in Hr.
    destruct (for_fold _ _ (prediction_body self predict_fn)).2 as [outs|e']; [|done].
    rewrite M_bind_snd in Hr.
    destruct (for_fold _ _ (metrics_body self step outs)).2 as [m|e'] eqn:Hloop;
      [|done].
    apply metrics_loop_inv in Hloop as (_ & Hwr & _).
    destruct (Hwr Hne) as [w Hw']. congruence.
  - intros task rest Htasks Hok [metrics Hm].
    rewrite evaluate_unfold, M_bind_snd.
    rewrite (prediction_loop_Ok self predict_fn _ ∅ Hok). cbn [snd].
    fold (collected self predict_fn). rewrite M_bind_snd, Htasks.
    cbn [for_fold]. by rewrite M_bind_snd, metrics_body_snd_cases, Hm, Hw.
Qed.

(** With [compute_metrics=False], [evaluate] reads nothing of the
    evaluator but its task list and its cached datasets: two evaluators that
    agree on these give the same trace and the same result, whatever their
    cached examples, cached targets and summary writer, and whatever the
    steps. *)
Theorem evaluate_without_metrics_reads_datasets_only
    self self' step step' predict_fn :
  eval_tasks self = eval_tasks self' →
  _cached_ds self = _cached_ds self' →
  evaluate self false step predict_fn = evaluate self' false step' predict_fn.
Proof.
  intros Htasks Hds. rewrite !evaluate_unfold, Htasks.
  rewrite (for_fold_ext _ _ _ (prediction_body self' predict_fn)); [done|].
  intros acc task _. unfold prediction_body.
  rewrite !task_output_tokens_unfold. unfold dataset_of, cached_ds.
  by rewrite Hds.
Qed.

(** The predictor is called exactly once per active task, in task order
    (line 206), whether or not metrics are computed, whenever its results
    pass the ordering step; all predictions are made before any decoding,
    so the trace starts with these calls. *)
Theorem predictor_called_once_per_task self compute_metrics step predict_fn :
  Forall (λ task, is_Ok (restored_tokens self predict_fn task)) (eval_tasks self) →
  filter is_predict (evaluate self compute_metrics step predict_fn).1
  = (λ task, CallPredictFn (name task)) <$> eval_tasks self
  ∧ ∃ t, (evaluate self compute_metrics step predict_fn).1
         = ((λ task, CallPredictFn (name task)) <$> eval_tasks self) ++ t
         ∧ Forall (λ e, is_predict e = false) t.
Proof.
  intros Hok.
  assert (∃ t, (evaluate self compute_metrics step predict_fn).1
               = ((λ task, CallPredictFn (name task)) <$> eval_tasks self) ++ t
               ∧ Forall (λ e, is_predict e = false) t) as (t & Ht & Hnp).
  { rewrite evaluate_unfold.
    rewrite (M_bind_Ok _ _ _ _ (prediction_loop_Ok self predict_fn _ ∅ Hok)).
    cbn [fst]. eexists. split; [done|].
    destruct compute_metrics; [|by constructor].
    unfold metrics_body, task_metrics, _log_eval_results, for_each.
    repeat trace_step. }
  split; [|by exists t].
  rewrite Ht, filter_app.
  assert (filter is_predict t = []) as ->.
  { clear Ht. induction Hnp as [|ev t Hev _ IH]; [done|].
    rewrite filter_cons_False; [done|]. rewrite Hev. by intros []. }
  by rewrite (right_id_L [] (++)), filter_predict_calls.
Qed.

(** [evaluate] stops at the first task whose prediction is rejected
    (lines 208-214): the predictor has been called for the tasks up to and
    including that one and for no later task, no other collaborator has
    been called, and the exception of the ordering step is the outcome,
    with or without metrics. *)
Theorem evaluate_stops_at_first_failure
    self compute_metrics step predict_fn pre task post ds e :
  eval_tasks self = pre ++ task :: post →
  Forall (λ task, is_Ok (restored_tokens self predict_fn task)) pre →
  dataset_of self task = Ok ds →
  ordered_output_tokens (predict_fn ds) = Err e →
  evaluate self compute_metrics step predict_fn
  = ((λ task, CallPredictFn (name task)) <$> pre ++ [task], Err e).
Proof.
  intros Htasks Hpre Hds Herr.
  assert (∀ acc, prediction_body self predict_fn acc task
                 = ([CallPredictFn (name task)], Err e)) as Hbody.
  { intros acc. unfold prediction_body.
    by rewrite task_output_tokens_unfold, Hds, Herr. }
  assert (for_fold (pre ++ task :: post) ∅ (prediction_body self predict_fn)
          = (((λ task, CallPredictFn (name task)) <$> pre)
               ++ [CallPredictFn (name task)], Err e)) as Hloop.
  { rewrite for_fold_app.
    rewrite (M_bind_Ok _ _ _ _ (prediction_loop_Ok self predict_fn pre ∅ Hpre)).
    cbn [for_fold]. by rewrite (M_bind_Err _ _ _ _ (Hbody _)). }
  by rewrite evaluate_unfold, Htasks, (M_bind_Err _ _ _ _ Hloop), fmap_app.
Qed.

(** Whenever [evaluate] returns, the outputs mapping has exactly the names
    of the active tasks as keys; the metrics are [None] exactly when
    [compute_metrics] is false, and otherwise a mapping with the same keys
    (lines 202-203, 212, 217, 238, 242). *)
Theorem evaluate_result_keys self compute_metrics step predict_fn outs mets :
  (evaluate self compute_metrics step predict_fn).2 = Ok (outs, mets) →
  dom outs = list_to_set (name <$> eval_tasks self)
  ∧ match mets with
    | Some m => compute_metrics = true ∧ dom m = dom outs
    | None => compute_metrics = false
    end.
Proof.
  intros H. rewrite evaluate_unfold, M_bind_snd in H.
  destruct (for_fold _ _ (prediction_body self predict_fn)).2 as [outs'|e']
    eqn:Hloop; [|done].
  pose proof (prediction_loop_inv _ _ _ _ _ Hloop) as Hok.
  rewrite (prediction_loop_Ok self predict_fn _ ∅ Hok) in Hloop.
  injection Hloop as <-.
  assert (dom (foldl (store_tokens self predict_fn) ∅ (eval_tasks self))
          = list_to_set (name <$> eval_tasks self)) as Hdom.
  { rewrite (foldl_store_dom (restored_tokens self predict_fn) _ ∅ Hok).
    by rewrite dom_empty_L, (left_id_L ∅ (∪)). }
  destruct compute_metrics.
  - rewrite M_bind_snd in H.
    destruct (for_fold _ _ (metrics_body _ _ _)).2 as [m|e'] eqn:Hm; [|done].
    injection H as <- <-. split; [done|]. split; [done|].
    apply metrics_loop_inv in Hm as (Hall & _ & ->).
    rewrite (foldl_store_dom (task_metrics_value self _) _ ∅ Hall), Hdom.
    by rewrite dom_empty_L, (left_id_L ∅ (∪)).
  - by injection H as <- <-.
Qed.

End MoreEvaluate.

(** * Further runs on the registry *)

Module MoreRuns.
Import Fixture.

Lemma init_auto_lengths_witness :
  ∃ self,
    construct "copy" None (Some "dir")
    = ([CallGetTargetsAndExamples; LogInfoLengths exact;
        CallFeatureConverter "copy"; OpenSummaryWriter "dir"], Ok self)
    ∧ _cached_ds self
      = Some {[ "copy" := enumerate (feature_converter dataset exact) ]}.
Proof.
  eexists. split.
  - eapply (init_auto_lengths get_subtasks get_valid_eval_tasks
              get_targets_and_examples "copy" feature_converter "validation"
              false (Some "dir") [copy "copy" dataset] (copy "copy" dataset) []
              _ _ _ exact eq_refl eq_refl eq_refl).
    repeat constructor. by eexists.
  - reflexivity.
Defined.

Lemma init_missing_length_key_witness :
  construct "copy" (Some only_targets) None
  = ([CallGetTargetsAndExamples], Err (KeyError "inputs"))
  ∧ construct "copy" (Some only_inputs) None
    = ([CallGetTargetsAndExamples], Err (KeyError "targets")).
Proof.
  split.
  - apply (proj1 (init_missing_length_key get_subtasks get_valid_eval_tasks
                    get_targets_and_examples "copy" feature_converter "validation"
                    false None [copy "copy" dataset] (copy "copy" dataset) []
                    _ _ _ only_targets exact eq_refl eq_refl eq_refl)).
    reflexivity.
  - apply (proj2 (init_missing_length_key get_subtasks get_valid_eval_tasks
                    get_targets_and_examples "copy" feature_converter "validation"
                    false None [copy "copy" dataset] (copy "copy" dataset) []
                    _ _ _ only_inputs exact eq_refl eq_refl eq_refl) 10 10);
      [reflexivity | reflexivity | lia | reflexivity].
Defined.

Lemma init_inputs_short_circuit_witness :
  ∃ self,
    construct "copy" (Some only_inputs_short) None
    = ([CallGetTargetsAndExamples; LogWarning InsufficientLengths;
        CallFeatureConverter "copy"], Ok self)
    ∧ _cached_ds self
      = Some {[ "copy" := enumerate (feature_converter dataset only_inputs_short) ]}.
Proof.
  eexists. split.
  - eapply (init_inputs_short_circuit get_subtasks get_valid_eval_tasks
              get_targets_and_examples "copy" feature_converter "validation"
              false None [copy "copy" dataset] (copy "copy" dataset) []
              _ _ _ only_inputs_short exact 8 10 eq_refl eq_refl eq_refl);
      [|reflexivity|reflexivity|lia].
    repeat constructor. by eexists.
  - reflexivity.
Defined.

Lemma constructed_summary_writer_witness :
  summary_writer plain = Err (AttributeError "_summary_writer")
  ∧ summary_writer logged = Ok (Some "dir")
  ∧ summary_writer (built "copy" None (Some "")) = Err (AttributeError "_summary_writer").
Proof.
  split; [|split].
  - apply (constructed_summary_writer get_subtasks get_valid_eval_tasks
             get_targets_and_examples "copy" feature_converter "validation"
             false None None (construct "copy" None None).1 plain);
      [reflexivity|done].
  - apply (constructed_summary_writer get_subtasks get_valid_eval_tasks
             get_targets_and_examples "copy" feature_converter "validation"
             false None (Some "dir") (construct "copy" None (Some "dir")).1 logged);
      [reflexivity|done].
  - apply (constructed_summary_writer get_subtasks get_valid_eval_tasks
             get_targets_and_examples "copy" feature_converter "validation"
             false None (Some "") (construct "copy" None (Some "")).1
             (built "copy" None (Some "")));
      [reflexivity|done].
Defined.

Lemma inactive_evaluator_witness :
  ∃ self,
    (construct "unscored" (Some exact) (Some "dir")).2 = Ok self
    ∧ cached_ds self = Err (AttributeError "_cached_ds")
    ∧ cached_examples self = Err (AttributeError "_cached_examples")
    ∧ cached_targets self = Err (AttributeError "_cached_targets")
    ∧ summary_writer self = Err (AttributeError "_summary_writer")
    ∧ ∀ step predict_fn,
        evaluate self false step predict_fn = ([], Ok (∅, None)).
Proof.
  apply (inactive_evaluator get_subtasks get_valid_eval_tasks
           get_targets_and_examples "unscored" feature_converter "validation"
           false (Some exact) (Some "dir") [unscored]); reflexivity.
Defined.

Lemma cached_ds_enumerated_witness :
  ∃ converted_examples : list (list Z),
    dataset_of plain (copy "copy" dataset) = Ok (enumerate converted_examples)
    ∧ ∀ (i : nat) (p : Z * list Z),
        enumerate converted_examples !! i = Some p
        ↔ p.1 = Z.of_nat i ∧ converted_examples !! i = Some p.2.
Proof.
  apply (cached_ds_enumerated get_subtasks get_valid_eval_tasks
           get_targets_and_examples "copy" feature_converter "validation"
           false None None (construct "copy" None None).1 plain eq_refl).
  by left.
Defined.

Lemma ordering_is_stable_sort_witness :
  ∃ out : list tuple,
    ordered_output_tokens (predict_duplicates []) = Ok (tokens_of <$> out)
    ∧ out ≡ₚ predict_duplicates []
    ∧ StronglySorted key_le (decorate <$> out)
    ∧ ∀ i, filter (λ x : tuple, key_of x = Int i) out
           = filter (λ x : tuple, key_of x = Int i) (predict_duplicates []).
Proof.
  apply ordering_is_stable_sort; [done|].
  repeat constructor; by do 2 eexists.
Defined.

Lemma short_element_index_error_witness :
  ordered_output_tokens (predict_empty_later []) = Err IndexError
  ∧ ordered_output_tokens (predict_short_later []) = Err IndexError.
Proof.
  split.
  - apply (short_element_index_error [Int 1; Seq [7]] [[]]); [done|].
    left. by constructor.
  - apply (short_element_index_error [Int 1; Seq [7]] [[Int 0]]); [done|].
    right. split; [repeat constructor; by eexists|by constructor].
Defined.

Lemma log_eval_results_trace_witness :
  _log_eval_results logged batch None "copy"
  = ([LogWarning StepNotProvided;
      LogInfoMetric "eval/copy/accuracy" (-1) (2 # 3);
      AddSummary "eval/copy/accuracy" (2 # 3) (-1);
      LogInfoMetric "eval/copy/f1" (-1) (1 # 2);
      AddSummary "eval/copy/f1" (1 # 2) (-1);
      LogInfoMetric "eval/copy/bleu" (-1) (1 # 4);
      AddSummary "eval/copy/bleu" (1 # 4) (-1);
      FlushSummary], Ok tt).
Proof.
  exact (log_eval_results_trace logged batch None "copy" (Some "dir") eq_refl).
Defined.

Lemma evaluate_metrics_needs_writer_witness :
  (∀ r, (evaluate plain true (Some 0) predict_reversed).2 ≠ Ok r)
  ∧ (evaluate plain true (Some 0) predict_reversed).2
    = Err (AttributeError "_summary_writer").
Proof.
  destruct (evaluate_metrics_needs_writer plain (Some 0) predict_reversed
              (AttributeError "_summary_writer")) as [Hnever Herr];
    [done|reflexivity|].
  split; [exact Hnever|].
  apply (Herr (copy "copy" dataset) []); [reflexivity| |by eexists].
  repeat constructor. by eexists.
Defined.

Lemma evaluate_without_metrics_reads_datasets_only_witness :
  evaluate plain false None predict_reversed
  = evaluate logged false (Some 3) predict_reversed.
Proof.
  by apply evaluate_without_metrics_reads_datasets_only.
Defined.

Lemma predictor_called_once_per_task_witness :
  filter is_predict (evaluate twice true (Some 0) predict_reversed).1
  = [CallPredictFn "copy"; CallPredictFn "copy2"].
Proof.
  apply (proj1 (predictor_called_once_per_task twice true (Some 0) predict_reversed
                  ltac:(repeat constructor; by eexists))).
Defined.

Lemma evaluate_stops_at_first_failure_witness :
  evaluate twice true None predict_three_only
  = ([CallPredictFn "copy"; CallPredictFn "copy2"], Err IndexError).
Proof.
  apply (evaluate_stops_at_first_failure twice true None predict_three_only
           [copy "copy" dataset] (copy "copy2" (drop 1 dataset)) []
           [(0, [4; 15; 7]); (1, [3; 15; 23])] IndexError);
    [reflexivity| |reflexivity|reflexivity].
  repeat constructor. by eexists.
Defined.

Lemma evaluate_result_keys_witness :
  ∃ outs m,
    (evaluate logged true (Some 0) predict_reversed).2 = Ok (outs, Some m)
    ∧ dom outs = {[ "copy" ]} ∧ dom m = dom outs.
Proof.
  destruct (evaluate logged true (Some 0) predict_reversed).2
    as [[outs [m|]]|e] eqn:H; [| |]; try (vm_compute in H; discriminate).
  destruct (evaluate_result_keys logged true (Some 0) predict_reversed outs (Some m) H)
    as (Houts & _ & Hm).
  exists outs, m. split; [done|]. split; [|done].
  rewrite Houts. reflexivity.
Defined.

End MoreRuns.
